(** * Batch-size autotuning of ultralytics/utils/autobatch.py

    A shallow embedding of [check_train_batch_size] and [autobatch].
    Python code is modelled in a state-and-exception monad [Py]: the state
    records what the two functions do to the outside world (temporary files,
    log records, spawned child processes, profiler runs, cache flushes), the
    outcome is a returned value or a raised exception.  What the code calls
    but does not define (torch, numpy, tempfile, subprocess, json and the
    configuration object DEFAULT_CFG) is a record [Host] of results, so the
    general theorems hold for all behaviours of these libraries; the examples
    run on a sample machine.

    Python floats are modelled by exact rationals [Q] (no rounding), with the
    two non-finite results a numpy division can produce kept apart. *)

From Stdlib Require Import ZArith QArith String List Bool Lia Lqa.
From Stdlib Require Import Ascii.
From stdpp Require Import base gmap strings.

Local Open Scope string_scope.
Local Open Scope list_scope.
Local Open Scope Z_scope.

(** ** Python values and exceptions *)

(** The values [json.loads] can produce; [PInt] also holds DEFAULT_CFG.batch
    and [PNone] is what a function returns when it falls off its end.  A dict
    is an association list whose first binding of a key is the dict's. *)
#[local] Unset Elimination Schemes.
Inductive pyval :=
| PNone
| PBool (b : bool)
| PInt (n : Z)
| PFloat (q : Q)
| PStr (s : string)
| PList (l : list pyval)
| PDict (d : list (string * pyval)).
#[local] Set Elimination Schemes.

Inductive Exn :=
| StopIteration
| UnboundLocalError (var : string)
| OSError
| CalledProcessError (returncode : Z) (out err : string)
| JSONDecodeError
| RuntimeError (arg : pyval)
| KeyError (key : string)
| TypeError
| IndexError
| OverflowError
| ValueError
| OtherException (name : string)
| KeyboardInterrupt.

(** [except subprocess.CalledProcessError] *)
Definition is_CalledProcessError (e : Exn) : bool :=
  match e with CalledProcessError _ _ _ => true | _ => false end.

(** [except json.JSONDecodeError] *)
Definition is_JSONDecodeError (e : Exn) : bool :=
  match e with JSONDecodeError => true | _ => false end.

(** [except Exception]: everything but the exceptions that derive from
    BaseException only. *)
Definition is_Exception (e : Exn) : bool :=
  match e with KeyboardInterrupt => false | _ => true end.

(** ** The outside world *)

Record Device := { dev_type : string; dev_index : option Z }.

(** A model is seen through [model.parameters()]: the devices of its
    parameters, in order. *)
Record Model := { param_devices : list Device }.

Record Tensor := { shape : list Z }.

(** One profiler result [[params, flops, mem, tf, tb, in, out]]; the code reads
    index 2 only. *)
Record ProfileRow := { row_params : Q; row_gflops : Q; row_mem : Q }.

Record CompletedProcess := { returncode : Z; stdout : string; stderr : string }.

(** The values interpolated into the child's program text. *)
Record ChildCode := {
  code_path : string; code_device : Device; code_imgsz : Z;
  code_fraction : Q; code_amp : bool }.

(** A numpy float: an exact rational, or the result of dividing by zero. *)
Inductive npfloat :=
| Finite (q : Q)
| Inf
| NaN.

Inductive Level := INFO | WARNING | ERROR.

Inductive Msg :=
| MsgComputingBatch (imgsz : Z)
| MsgCudaNotDetected (default : Z)
| MsgDetermined (batch_size : pyval)
| MsgParseFailed (out err : string)
| MsgSubprocessError (e : Exn)
| MsgSubprocessStdout (out : string)
| MsgSubprocessStderr (err : string)
| MsgError (e : Exn)
| MsgUsingDefault (default : Z)
| MsgAutobatchStart (imgsz : Z) (percent : Q)
| MsgIntendedForCuda (batch_size : Z)
| MsgRequiresNoBenchmark (batch_size : Z)
| MsgMemory (t r a f : Q)
| MsgAnomaly (batch_size : Z)
| MsgUsingBatch (b : Z) (fraction : npfloat)
| MsgErrorDetected (e : Exn) (batch_size : Z).

Record State := {
  fs : gset string;               (* temporary files that exist *)
  logs : list (Level * Msg);      (* LOGGER records, oldest first *)
  spawned : nat;                  (* calls of subprocess.run *)
  profiler_runs : nat;            (* calls of profile() *)
  cache_flushes : nat;            (* calls of torch.cuda.empty_cache() *)
  tmp_file_path : option string   (* the local of that name; None = unbound *)
}.

(** What the libraries answer.  [inl e] is a raised exception. *)
Record Host := {
  DEFAULT_CFG_batch : Z;
  cudnn_benchmark : bool;
  tempfile_name : Exn + string;
  torch_save_raises : Model -> string -> option Exn;
  child_process : ChildCode -> Exn + CompletedProcess;
  json_loads : string -> option pyval;
  total_memory : Device -> Exn + Z;
  memory_reserved : Device -> Exn + Z;
  memory_allocated : Device -> Exn + Z;
  torch_empty : list Z -> Exn + Tensor;
  profile_result : list Tensor -> Model -> Z -> Device ->
                   Exn + list (option ProfileRow);
  np_polyfit : list Z -> list Q -> Exn + (Q * Q)   (* np.polyfit(x, y, deg=1) *)
}.

(** ** The monad *)

Inductive Outcome (A : Type) :=
| Ret (a : A)
| Raise (e : Exn).
Arguments Ret {A} a.
Arguments Raise {A} e.

Definition Py (A : Type) : Type := State -> Outcome A * State.

Definition ret {A} (a : A) : Py A := fun s => (Ret a, s).

Definition raise {A} (e : Exn) : Py A := fun s => (Raise e, s).

Definition bind {A B} (m : Py A) (k : A -> Py B) : Py B :=
  fun s => match m s with
           | (Ret a, s') => k a s'
           | (Raise e, s') => (Raise e, s')
           end.

Notation "'do' x <- m 'in' k" := (bind m (fun x => k))
  (at level 10, x name, m at level 100, k at level 200).
Notation "m >> k" := (bind m (fun _ => k))
  (at level 60, right associativity).

Definition lift {A} (r : Exn + A) : Py A :=
  match r with inl e => raise e | inr a => ret a end.

(** [try: body except ...:]; [clauses e] is the body of the first clause that
    matches [e], if any. *)
Definition try_except {A} (body : Py A) (clauses : Exn -> option (Py A)) : Py A :=
  fun s => match body s with
           | (Ret a, s') => (Ret a, s')
           | (Raise e, s') =>
               match clauses e with
               | Some handler => handler s'
               | None => (Raise e, s')
               end
           end.

(** [try: body finally: cleanup]: the cleanup runs whatever the body did, and
    an exception it raises replaces the body's return value or exception. *)
Definition try_finally {A} (body : Py A) (cleanup : Py unit) : Py A :=
  fun s => match body s with
           | (o, s') =>
               match cleanup s' with
               | (Ret _, s'') => (o, s'')
               | (Raise e, s'') => (Raise e, s'')
               end
           end.

Definition modify (f : State -> State) : Py unit := fun s => (Ret tt, f s).

Definition count_profiler_run (s : State) : State :=
  {| fs := fs s; logs := logs s; spawned := spawned s;
     profiler_runs := S (profiler_runs s);
     cache_flushes := cache_flushes s;
     tmp_file_path := tmp_file_path s |}.

Definition log (l : Level) (m : Msg) : Py unit :=
  modify (fun s => {| fs := fs s; logs := logs s ++ [(l, m)]; spawned := spawned s;
                      profiler_runs := profiler_runs s;
                      cache_flushes := cache_flushes s;
                      tmp_file_path := tmp_file_path s |}).

(** ** Helpers of the Python runtime *)

(** [next(model.parameters()).device] *)
Definition first_param_device (model : Model) : Py Device :=
  match param_devices model with
  | d :: _ => ret d
  | [] => raise StopIteration
  end.

(** [x < y] on floats *)
Definition Qltb (x y : Q) : bool := negb (Qle_bool y x).

(** [device.type in {"cpu", "mps"}] *)
Definition cpu_class (device : Device) : bool :=
  String.eqb (dev_type device) "cpu" || String.eqb (dev_type device) "mps".

Fixpoint dict_get (key : string) (d : list (string * pyval)) : option pyval :=
  match d with
  | [] => None
  | (k, v) :: rest => if String.eqb k key then Some v else dict_get key rest
  end.

Definition is_str (key : string) (v : pyval) : bool :=
  match v with PStr s => String.eqb s key | _ => false end.

(** [key in s] for two strings: [key] occurs in [s]. *)
Fixpoint substringb (key s : string) : bool :=
  String.prefix key s ||
  match s with
  | EmptyString => false
  | String _ rest => substringb key rest
  end.

(** [key in o], for a string [key] *)
Definition py_contains (key : string) (o : pyval) : Exn + bool :=
  match o with
  | PDict d => inr (match dict_get key d with Some _ => true | None => false end)
  | PList l => inr (existsb (is_str key) l)
  | PStr s => inr (substringb key s)
  | PNone | PBool _ | PInt _ | PFloat _ => inl TypeError
  end.

(** [o[key]], for a string [key] *)
Definition py_getitem (o : pyval) (key : string) : Exn + pyval :=
  match o with
  | PDict d => match dict_get key d with
               | Some v => inr v
               | None => inl (KeyError key)
               end
  | _ => inl TypeError
  end.

(** [x / y] on numpy floats: a zero divisor gives inf or nan and a warning, not
    an exception. *)
Definition np_div (x y : Q) : npfloat :=
  if Qeq_bool y 0 then (if Qeq_bool x 0 then NaN else Inf)
  else Finite (x / y).

(** Truncation toward zero. *)
Definition Qtrunc (q : Q) : Z := Z.quot (Qnum q) (Z.pos (Qden q)).

(** [int(x)] *)
Definition py_int (x : npfloat) : Exn + Z :=
  match x with
  | Finite q => inr (Qtrunc q)
  | Inf => inl OverflowError
  | NaN => inl ValueError
  end.

(** [bytes / gb] with [gb = 1 << 30] (line 115) *)
Definition gib (bytes : Z) : Q := (inject_Z bytes / inject_Z (Z.shiftl 1 30))%Q.

(** [np.polyval(p, b)] for a first-degree [p] *)
Definition polyval (p : Q * Q) (b : Z) : Q := (fst p * inject_Z b + snd p)%Q.

(** [l[i]] on a list, negative indices counting from the end *)
Definition list_getitem (l : list Z) (i : Z) : Exn + Z :=
  let j := if i <? 0 then i + Z.of_nat (length l) else i in
  if j <? 0 then inl IndexError
  else match l !! Z.to_nat j with
       | Some x => inr x
       | None => inl IndexError
       end.

(** [b < 1 or b > 1024] (line 138) *)
Definition outside_safe_range (b : Z) : bool := (b <? 1) || (b >? 1024).

(** [None in results] *)
Definition has_None (results : list (option ProfileRow)) : bool :=
  existsb (fun x => match x with None => true | Some _ => false end) results.

(** [results.index(None)] *)
Fixpoint index_None (results : list (option ProfileRow)) : Exn + Z :=
  match results with
  | [] => inl ValueError
  | None :: _ => inr 0
  | Some _ :: rest =>
      match index_None rest with
      | inr i => inr (i + 1)
      | inl e => inl e
      end
  end.

(** [[x[2] for x in results if x]] *)
Fixpoint memories (results : list (option ProfileRow)) : list Q :=
  match results with
  | [] => []
  | Some x :: rest => row_mem x :: memories rest
  | None :: rest => memories rest
  end.

(** A list comprehension whose element expression may raise. *)
Fixpoint comprehension {A B} (f : A -> Py B) (l : list A) : Py (list B) :=
  match l with
  | [] => ret []
  | a :: rest =>
      do b <- f a in
      do bs <- comprehension f rest in
      ret (b :: bs)
  end.

Section Program.

Variable host : Host.

(** [tempfile.NamedTemporaryFile(suffix=".pt", delete=False)]: the file exists
    from here on, also after the [with] block has closed it. *)
Definition NamedTemporaryFile : Py string :=
  do name <- lift (tempfile_name host) in
  modify (fun s => {| fs := {[name]} ∪ fs s; logs := logs s; spawned := spawned s;
                      profiler_runs := profiler_runs s;
                      cache_flushes := cache_flushes s;
                      tmp_file_path := tmp_file_path s |}) >>
  ret name.

Definition torch_save (model : Model) (name : string) : Py unit :=
  match torch_save_raises host model name with
  | Some e => raise e
  | None => ret tt
  end.

(** [tmp_file_path = Path(...)] *)
Definition assign_tmp_file_path (name : string) : Py unit :=
  modify (fun s => {| fs := fs s; logs := logs s; spawned := spawned s;
                      profiler_runs := profiler_runs s;
                      cache_flushes := cache_flushes s;
                      tmp_file_path := Some name |}).

(** Reading the local [tmp_file_path] *)
Definition read_tmp_file_path : Py string :=
  fun s => match tmp_file_path s with
           | Some p => (Ret p, s)
           | None => (Raise (UnboundLocalError "tmp_file_path"), s)
           end.

(** [subprocess.run([sys.executable, "-c", code], capture_output=True,
    text=True, check=True)] *)
Definition subprocess_run (code : ChildCode) : Py CompletedProcess :=
  modify (fun s => {| fs := fs s; logs := logs s; spawned := S (spawned s);
                      profiler_runs := profiler_runs s;
                      cache_flushes := cache_flushes s;
                      tmp_file_path := tmp_file_path s |}) >>
  do result <- lift (child_process host code) in
  if Z.eqb (returncode result) 0 then ret result
  else raise (CalledProcessError (returncode result) (stdout result) (stderr result)).

(** [path.unlink(missing_ok=True)] *)
Definition unlink (path : string) : Py unit :=
  modify (fun s => {| fs := fs s ∖ {[path]}; logs := logs s; spawned := spawned s;
                      profiler_runs := profiler_runs s;
                      cache_flushes := cache_flushes s;
                      tmp_file_path := tmp_file_path s |}).

(** [torch.cuda.empty_cache()] *)
Definition empty_cache : Py unit :=
  modify (fun s => {| fs := fs s; logs := logs s; spawned := spawned s;
                      profiler_runs := profiler_runs s;
                      cache_flushes := S (cache_flushes s);
                      tmp_file_path := tmp_file_path s |}).

(** [json.loads(text)]: a decoded value, or ([None]) a JSONDecodeError, the one
    exception of the decoder that line 71 tells apart. *)
Definition loads (text : string) : Py pyval :=
  match json_loads host text with
  | Some v => ret v
  | None => raise JSONDecodeError
  end.

(** ** check_train_batch_size (lines 17-87) *)

(** Lines 64-73: the inner [try] that parses the child's output. *)
Definition parse_output (result : CompletedProcess) : Py pyval :=
  try_except
    (do output <- loads (stdout result) in
     do has_error <- lift (py_contains "error" output) in
     if has_error : bool then
       do msg <- lift (py_getitem output "error") in
       raise (RuntimeError msg)
     else
       do batch_size <- lift (py_getitem output "batch_size") in
       log INFO (MsgDetermined batch_size) >>
       ret batch_size)
    (fun e =>
       if is_JSONDecodeError e then
         Some (log ERROR (MsgParseFailed (stdout result) (stderr result)) >>
               raise e)
       else None).

(** Lines 41-70: the body of the outer [try]. *)
Definition run_in_subprocess (model : Model) (device : Device) (imgsz : Z)
    (fraction : Q) (amp : bool) : Py pyval :=
  do name <- NamedTemporaryFile in
  torch_save model name >>
  assign_tmp_file_path name >>
  let code := {| code_path := name; code_device := device; code_imgsz := imgsz;
                 code_fraction := fraction; code_amp := amp |} in
  do result <- subprocess_run code in
  parse_output result.

(** Lines 75-82: the two [except] clauses of the outer [try].  The first one
    has no [return]: control leaves the [try] statement, reaches the end of
    the function, and the call returns [None]. *)
Definition outer_clauses (e : Exn) : option (Py pyval) :=
  if is_CalledProcessError e then
    Some (log WARNING (MsgSubprocessError e) >>
          match e with
          | CalledProcessError _ out err =>
              log WARNING (MsgSubprocessStdout out) >>
              log WARNING (MsgSubprocessStderr err)
          | _ => ret tt
          end >>
          ret PNone)
  else if is_Exception e then
    Some (log WARNING (MsgError e) >>
          log WARNING (MsgUsingDefault (DEFAULT_CFG_batch host)) >>
          ret (PInt (DEFAULT_CFG_batch host)))
  else None.

(** Lines 84-87: the [finally] clause. *)
Definition cleanup : Py unit :=
  do path <- read_tmp_file_path in
  unlink path >>
  empty_cache.

(** Line 38 *)
Definition memory_fraction (batch : Q) : Q :=
  if Qltb 0 batch && Qltb batch 1 then batch else (3 # 5)%Q.

(** A call starts with a fresh frame: the local is unbound. *)
Definition enter_frame : Py unit :=
  modify (fun s => {| fs := fs s; logs := logs s; spawned := spawned s;
                      profiler_runs := profiler_runs s;
                      cache_flushes := cache_flushes s;
                      tmp_file_path := None |}).

Definition check_train_batch_size (model : Model) (imgsz : Z) (amp : bool)
    (batch : Q) : Py pyval :=
  enter_frame >>
  log INFO (MsgComputingBatch imgsz) >>
  do device <- first_param_device model in
  if cpu_class device then
    log INFO (MsgCudaNotDetected (DEFAULT_CFG_batch host)) >>
    ret (PInt (DEFAULT_CFG_batch host))
  else
    let fraction := memory_fraction batch in
    try_finally
      (try_except (run_in_subprocess model device imgsz fraction amp)
                  outer_clauses)
      cleanup.

(** ** autobatch (lines 90-147) *)

Definition batch_sizes : list Z := [1; 2; 4; 8; 16].

(** [profile(img, model, n=3, device=device)].  The function is imported from
    torch_utils and its body is not among these sources: the model counts the
    call and takes the answer from the host.  What else the call does to the
    device is not modelled. *)
Definition profile (img : list Tensor) (model : Model) (n : Z) (device : Device)
    : Py (list (option ProfileRow)) :=
  modify count_profiler_run >>
  lift (profile_result host img model n device).

(** Lines 127-133: profile the candidates, fit a line, solve for [b]. *)
Definition fit_solution (model : Model) (device : Device) (imgsz : Z)
    (f fraction : Q) : Py (list (option ProfileRow) * (Q * Q) * Z) :=
  do img <- comprehension (fun b => lift (torch_empty host [b; 3; imgsz; imgsz]))
                          batch_sizes in
  do results <- profile img model 3 device in
  let y := memories results in
  do p <- lift (np_polyfit host (take (length y) batch_sizes) y) in
  do b <- lift (py_int (np_div (f * fraction - snd p) (fst p))) in
  ret (results, p, b).

(** Lines 134-137: step back from a failed candidate. *)
Definition clamp_to_safe (results : list (option ProfileRow)) (b : Z) : Exn + Z :=
  if has_None results then
    match index_None results with
    | inl e => inl e
    | inr i =>
        match list_getitem batch_sizes i with
        | inl e => inl e
        | inr failed =>
            if b >=? failed then list_getitem batch_sizes (Z.max (i - 1) 0)
            else inr b
        end
    end
  else inr b.

(** Lines 138-140: the safe range. *)
Definition check_range (b batch_size : Z) : Py Z :=
  if outside_safe_range b then
    log INFO (MsgAnomaly batch_size) >>
    ret batch_size
  else ret b.

(** Lines 127-144: the body of the [try]. *)
Definition estimate (model : Model) (device : Device) (imgsz : Z)
    (fraction : Q) (batch_size : Z) (t r a f : Q) : Py Z :=
  do fit <- fit_solution model device imgsz f fraction in
  let '(results, p, b) := fit in
  do b <- lift (clamp_to_safe results b) in
  do b <- check_range b batch_size in
  let fraction := np_div (polyval p b + r + a) t in
  log INFO (MsgUsingBatch b fraction) >>
  ret b.

(** Lines 145-147 *)
Definition fallback_clause (batch_size : Z) (e : Exn) : option (Py Z) :=
  if is_Exception e then
    Some (log WARNING (MsgErrorDetected e batch_size) >>
          ret batch_size)
  else None.

Definition autobatch (model : Model) (imgsz : Z) (fraction : Q) (batch_size : Z)
    : Py Z :=
  log INFO (MsgAutobatchStart imgsz (fraction * 100)) >>
  do device <- first_param_device model in
  if cpu_class device then
    log INFO (MsgIntendedForCuda batch_size) >>
    ret batch_size
  else if cudnn_benchmark host then
    log INFO (MsgRequiresNoBenchmark batch_size) >>
    ret batch_size
  else
    do total <- lift (total_memory host device) in
    let t := gib total in
    do reserved <- lift (memory_reserved host device) in
    let r := gib reserved in
    do allocated <- lift (memory_allocated host device) in
    let a := gib allocated in
    let f := (t - (r + a))%Q in
    log INFO (MsgMemory t r a f) >>
    try_except (estimate model device imgsz fraction batch_size t r a f)
               (fallback_clause batch_size).

End Program.

(** A library call that raises nothing but what [except Exception] catches. *)
Definition catchable {A} (r : Exn + A) : Prop :=
  forall e, r = inl e -> is_Exception e = true.

(** ** Least squares: an exact np.polyfit of degree one *)

Definition Qsum (l : list Q) : Q := fold_right Qplus 0%Q l.

Fixpoint Qdot (xs ys : list Q) : Q :=
  match xs, ys with
  | x :: xs', y :: ys' => (x * y + Qdot xs' ys')%Q
  | _, _ => 0%Q
  end.

(** The line [(slope, intercept)] that minimises the squared error, from the
    normal equations.  numpy refuses empty input and lists of different
    lengths with a TypeError, and answers a rank-deficient system (one sample,
    or all abscissae equal) with the solution of least norm and a warning.
    Abscissae that are all zero are left out: autobatch passes a prefix of
    [batch_sizes]. *)
Definition polyfit_deg1 (xs : list Z) (ys : list Q) : Exn + (Q * Q) :=
  if negb (Nat.eqb (length xs) (length ys)) then inl TypeError
  else
    match xs with
    | [] => inl TypeError
    | x0 :: _ =>
        let n := inject_Z (Z.of_nat (length xs)) in
        let xq := map inject_Z xs in
        let sx := Qsum xq in
        let sy := Qsum ys in
        let sxx := Qdot xq xq in
        let sxy := Qdot xq ys in
        let det := (n * sxx - sx * sx)%Q in
        if Qeq_bool det 0 then
          if x0 =? 0 then inl (OtherException "LinAlgError")
          else inr (Qred (sy / n / (2 * inject_Z x0)), Qred (sy / n / 2))
        else
          let m := ((n * sxy - sx * sy) / det)%Q in
          inr (Qred m, Qred ((sy - m * sx) / n))
    end.

(** ** Concrete hosts, for the examples *)

Definition cuda0 : Device := {| dev_type := "cuda"; dev_index := Some 0 |}.
Definition cpu : Device := {| dev_type := "cpu"; dev_index := None |}.

Definition gpu_model : Model := {| param_devices := [cuda0; cuda0] |}.
Definition cpu_model : Model := {| param_devices := [cpu] |}.

Definition row (m : Q) : option ProfileRow :=
  Some {| row_params := 11; row_gflops := 28; row_mem := m |}.

Definition tmp_name : string := "/tmp/tmpk3v9.pt".

Definition ten_gib : Z := 10 * Z.shiftl 1 30.

(** A machine with 10 GiB of device memory, none of it in use, a profiler
    that answers [results], a child process that answers [child] and a
    [json.loads] that answers [decode]. *)
Definition machine (save : option Exn) (child : Exn + CompletedProcess)
    (decode : string -> option pyval) (results : Exn + list (option ProfileRow))
    : Host :=
  {| DEFAULT_CFG_batch := 16;
     cudnn_benchmark := false;
     tempfile_name := inr tmp_name;
     torch_save_raises := fun _ _ => save;
     child_process := fun _ => child;
     json_loads := decode;
     total_memory := fun _ => inr ten_gib;
     memory_reserved := fun _ => inr 0;
     memory_allocated := fun _ => inr 0;
     torch_empty := fun sh => inr {| shape := sh |};
     profile_result := fun _ _ _ _ => results;
     np_polyfit := polyfit_deg1 |}.

(** Texts a child can print, and a decoder that knows them and rejects every
    other text. *)
Definition dq : string := String (Ascii.ascii_of_nat 34) EmptyString.

Definition quoted (text : string) : string := (dq ++ text ++ dq)%string.

Definition negative_text : string :=
  ("{" ++ quoted "batch_size" ++ ": -3}")%string.

Definition both_members_text : string :=
  ("{" ++ quoted "error" ++ ": " ++ quoted "CUDA out of memory" ++ ", "
       ++ quoted "batch_size" ++ ": 8}")%string.

Definition traceback_text : string := "Traceback (most recent call last):".

Definition sample_decoder (text : string) : option pyval :=
  if String.eqb text negative_text then
    Some (PDict [("batch_size", PInt (-3))])
  else if String.eqb text both_members_text then
    Some (PDict [("error", PStr "CUDA out of memory"); ("batch_size", PInt 8)])
  else None.

Definition exited (status : Z) (out : string) : Exn + CompletedProcess :=
  inr {| returncode := status; stdout := out; stderr := "stderr of the child" |}.

Definition boot : State :=
  {| fs := ∅; logs := []; spawned := 0; profiler_runs := 0; cache_flushes := 0;
     tmp_file_path := None |}.

Definition all_succeed : list (option ProfileRow) :=
  [row (1 # 2); row (9 # 10); row (17 # 10); row (33 # 10); row (13 # 2)].

(** The first candidate fails, the other four answer. *)
Definition first_fails : list (option ProfileRow) :=
  [None; row (1 # 2); row (9 # 10); row (17 # 10); row (33 # 10)].

(** The candidates 8 and 16 fail. *)
Definition fourth_fails : list (option ProfileRow) :=
  [row (1 # 2); row (9 # 10); row (17 # 10); None; None].

(** A model that needs a thousandth of a GiB per image. *)
Definition tiny_model : list (option ProfileRow) :=
  [row (1 # 1000); row (2 # 1000); row (4 # 1000); row (8 # 1000);
   row (16 # 1000)].

(** The sample machine as an estimator only. *)
Definition profiling (results : Exn + list (option ProfileRow)) : Host :=
  machine None (inl OSError) sample_decoder results.

(** ** setup.py: get_version (lines 14-16) *)

Definition newline : ascii := Ascii.ascii_of_nat 10.

(** The class of the pattern: a single or a double quote *)
Definition is_quote (c : ascii) : bool :=
  Ascii.eqb c "'"%char || Ascii.eqb c (Ascii.ascii_of_nat 34).

(** [s] without its prefix [p], when it has it *)
Fixpoint strip_prefix (p s : string) : option string :=
  match p, s with
  | EmptyString, _ => Some s
  | String a p', String b s' =>
      if Ascii.eqb a b then strip_prefix p' s' else None
  | String _ _, EmptyString => None
  end.

(** The group and the closing quote at the start of [s]: the characters
    before the first quote, when there is one.  The group's class leaves out
    both quotes, so no shorter run is followed by a quote and there is nothing
    to backtrack to. *)
Fixpoint until_quote (s : string) : option string :=
  match s with
  | EmptyString => None
  | String c rest =>
      if is_quote c then Some EmptyString
      else match until_quote rest with
           | Some run => Some (String c run)
           | None => None
           end
  end.

(** The pattern after its [^], at the start of [s]; the answer is group 1. *)
Definition match_version (s : string) : option string :=
  match strip_prefix "__version__ = " s with
  | Some (String q rest) => if is_quote q then until_quote rest else None
  | _ => None
  end.

(** [re.search(pattern, text, re.M)]: the leftmost start that matches.  With
    re.M, [^] holds at the start of the text and right after each newline;
    [line_start] says whether it holds here. *)
Fixpoint search_version (line_start : bool) (text : string) : option string :=
  match (if line_start then match_version text else None) with
  | Some v => Some v
  | None =>
      match text with
      | EmptyString => None
      | String c rest => search_version (Ascii.eqb c newline) rest
      end
  end.

(** get_version, given what [file.read_text()] answers.  Without a match
    re.search returns None, and [None[1]] is a TypeError. *)
Definition get_version (read_text : Exn + string) : Exn + string :=
  match read_text with
  | inl e => inl e
  | inr text =>
      match search_version true text with
      | Some v => inr v
      | None => inl TypeError
      end
  end.

(** For the statements: the characters of a string, lines joined with their
    newlines, and a line that has no newline inside and does not start with
    an underscore. *)
Definition chars (s : string) : list ascii := list_ascii_of_string s.

Definition join_lines (lines : list string) : string :=
  fold_right (fun l text => (l ++ String newline text)%string) EmptyString lines.

Definition other_line (l : string) : Prop :=
  ~ In newline (chars l) /\ String.get 0 l <> Some "_"%char.

(** ** tests/data/dataloader/yolodetection.py: Colors (lines 10-28) *)

(** The value of a hexadecimal digit, from its character code: the digits
    are 48 to 57, the lower-case letters a to f 97 to 102, the upper-case
    ones 65 to 70. *)
Definition hex_digit (c : ascii) : option Z :=
  let code := Z.of_nat (nat_of_ascii c) in
  if (48 <=? code) && (code <=? 57) then Some (code - 48)
  else if (97 <=? code) && (code <=? 102) then Some (code - 87)
  else if (65 <=? code) && (code <=? 70) then Some (code - 55)
  else None.

(** The value of a string of exactly two hexadecimal digits *)
Definition hex_pair (s : string) : option Z :=
  match s with
  | String a (String b EmptyString) =>
      match hex_digit a, hex_digit b with
      | Some x, Some y => Some (16 * x + y)
      | _, _ => None
      end
  | _ => None
  end.

(** [l[i]], negative indices counting from the end *)
Definition py_index {A} (l : list A) (i : Z) : Exn + A :=
  let j := if i <? 0 then i + Z.of_nat (length l) else i in
  if j <? 0 then inl IndexError
  else match l !! Z.to_nat j with
       | Some x => inr x
       | None => inl IndexError
       end.

Record Colors := { palette : list (Z * Z * Z); n : Z }.

Definition hexs : list string :=
  ["FF3838"; "FF9D97"; "FF701F"; "FFB21D"; "CFD231"; "48F90A"; "92CC17";
   "3DDB86"; "1A9334"; "00D4BB"; "2C99A8"; "00C2FF"; "344593"; "6473FF";
   "0018EC"; "8438FF"; "520085"; "CB38FF"; "FF95C8"; "FF37C7"].

Section Palette.

(** Python's [int(s, 16)]; the theorems assume of it what [hex_pair] says
    about two hexadecimal digits. *)
Variable int16 : string -> Exn + Z.

(** Colors.hex2rgb (line 25): the slices [h[1:3]], [h[3:5]], [h[5:7]] *)
Definition hex2rgb (h : string) : Exn + (Z * Z * Z) :=
  match int16 (substring 1 2 h) with
  | inl e => inl e
  | inr r =>
      match int16 (substring 3 2 h) with
      | inl e => inl e
      | inr g =>
          match int16 (substring 5 2 h) with
          | inl e => inl e
          | inr b => inr (r, g, b)
          end
      end
  end.

(** Line 16: [[self.hex2rgb(f'#{c}') for c in hexs]] *)
Fixpoint hex2rgb_each (l : list string) : Exn + list (Z * Z * Z) :=
  match l with
  | [] => inr []
  | c :: rest =>
      match hex2rgb (String "#" c) with
      | inl e => inl e
      | inr rgb =>
          match hex2rgb_each rest with
          | inl e => inl e
          | inr rgbs => inr (rgb :: rgbs)
          end
      end
  end.

(** Colors.__init__ (lines 12-17) *)
Definition Colors_init : Exn + Colors :=
  match hex2rgb_each hexs with
  | inl e => inl e
  | inr p => inr {| palette := p; n := Z.of_nat (length p) |}
  end.

End Palette.

(** Colors.__call__ (lines 19-21), for an integer [i] *)
Definition Colors_call (self : Colors) (i : Z) (bgr : bool)
    : Exn + (Z * Z * Z) :=
  if n self =? 0 then inl (OtherException "ZeroDivisionError")
  else
    match py_index (palette self) (i mod n self) with
    | inl e => inl e
    | inr (c0, c1, c2) => inr (if bgr then (c2, c1, c0) else (c0, c1, c2))
    end.

(** A colour component *)
Definition byte (x : Z) : Prop := 0 <= x <= 255.

(** An [int(s, 16)] for the examples: it knows two-digit strings only. *)
Definition two_digit_int16 (s : string) : Exn + Z :=
  match hex_pair s with
  | Some v => inr v
  | None => inl ValueError
  end.

(** ** utils/tlc/detect/model.py: TLCYOLO.task_map (lines 30-37) *)

Inductive Class :=
| TLCDetectionModel
| TLCDetectionTrainer
| TLCDetectionValidator
| Upstream (name : string).

(** The property, given what [super().task_map] answers: three item
    assignments into the dict under "detect". *)
Definition task_map (super_task_map : gmap string (gmap string Class))
    : Exn + gmap string (gmap string Class) :=
  match super_task_map !! "detect" with
  | None => inl (KeyError "detect")
  | Some entry =>
      inr (<["detect" :=
               <["validator" := TLCDetectionValidator]>
                 (<["trainer" := TLCDetectionTrainer]>
                    (<["model" := TLCDetectionModel]> entry))]>
             super_task_map)
  end.

(** ** utils/tlc/detect/trainer.py: TLCDetectionTrainer (lines 30-112) *)

(** Truth value of a Python value *)
Definition py_truthy (v : pyval) : bool :=
  match v with
  | PNone => false
  | PBool b => b
  | PInt k => negb (k =? 0)
  | PFloat q => negb (Qeq_bool q 0)
  | PStr t => negb (String.eqb t EmptyString)
  | PList l => match l with [] => false | _ => true end
  | PDict d => match d with [] => false | _ => true end
  end.

Record Table := { table_url : string; table_project : string }.

(** A dataset: [dataset_rect] is its attribute [rect], when it has one. *)
Record Dataset := { dataset_id : Z; dataset_rect : option pyval }.

(** A dataloader is true when its length is not zero. *)
Record Loader := { loader_id : Z; loader_len : nat }.

Record Run := { run_id : Z }.

Record Validator := { validator_id : Z }.

(** The calls the trainer makes into the framework and into 3LC, in order. *)
Inductive Event :=
| EvBuildDataset (img_path : string) (batch : option Z) (mode : string)
                 (rect : bool) (stride : Z) (table : Table)
| EvWarnRect
| EvBuildDataloader (dataset : Dataset) (batch workers : Z) (shuffle : bool)
                    (rank : Z)
| EvNewValidator (loader : Loader) (run : option Run)
| EvCallValidator (validator : Validator) (epoch : Z)
| EvSuperValidate
| EvSuperDoTrain (world_size : Z)
| EvReduceEmbeddings (run : Run) (url method : string) (n_components : Z)
| EvTlcInit (project : string).

(** The trainer object, with the trace of its calls. *)
Record Trainer := {
  self_workers : Z;                           (* self.args.workers *)
  self_task : string;                         (* self.args.task *)
  self_epochs : Z;                            (* self.args.epochs *)
  self_batch_size : Z;
  self_testset : string;
  self_model : option (list Q);               (* the strides of self.model *)
  self_data : gmap string Table;
  self_test_loader : option Loader;           (* None: not set yet *)
  self_epoch : Z;
  self_loss_names : list string;
  self_train_validator : option Validator;    (* self._train_validator *)
  self_env_vars : gmap string pyval;          (* self._env_vars *)
  self_collection_epochs : list Z;            (* self._collection_epochs *)
  self_run : option Run;                      (* self._run *)
  trace : list Event
}.

(** What the framework and 3LC answer. *)
Record Framework := {
  RANK : Z;
  build_tlc_dataset : string -> option Z -> string -> bool -> Z -> Table ->
                      Exn + Dataset;
  build_dataloader : Dataset -> Z -> Z -> bool -> Z -> Exn + Loader;
  new_validator : Loader -> option Run -> Exn + Validator;
  call_validator : Validator -> Z -> option Exn;
  super_validate : Exn + pyval;
  super_do_train : Z -> option Exn;
  reduce_embeddings : Run -> string -> string -> Z -> option Exn;
  parse_environment_variables : Exn + gmap string pyval;
  get_metrics_collection_epochs : pyval -> Z -> pyval -> pyval -> Exn + list Z;
  tlc_init : string -> Exn + Run
}.

Definition Tr (A : Type) : Type := Trainer -> Outcome A * Trainer.

Definition tret {A} (a : A) : Tr A := fun self => (Ret a, self).

Definition traise {A} (e : Exn) : Tr A := fun self => (Raise e, self).

Definition tbind {A B} (m : Tr A) (k : A -> Tr B) : Tr B :=
  fun self => match m self with
              | (Ret a, self') => k a self'
              | (Raise e, self') => (Raise e, self')
              end.

Notation "'tdo' x <- m 'in' k" := (tbind m (fun x => k))
  (at level 10, x name, m at level 100, k at level 200).

Definition tlift {A} (r : Exn + A) : Tr A :=
  match r with inl e => traise e | inr a => tret a end.

Definition tcheck (r : option Exn) : Tr unit :=
  match r with Some e => traise e | None => tret tt end.

Definition emit (ev : Event) : Tr unit :=
  fun self =>
    (Ret tt,
     {| self_workers := self_workers self; self_task := self_task self;
        self_epochs := self_epochs self;
        self_batch_size := self_batch_size self;
        self_testset := self_testset self; self_model := self_model self;
        self_data := self_data self;
        self_test_loader := self_test_loader self;
        self_epoch := self_epoch self;
        self_loss_names := self_loss_names self;
        self_train_validator := self_train_validator self;
        self_env_vars := self_env_vars self;
        self_collection_epochs := self_collection_epochs self;
        self_run := self_run self;
        trace := trace self ++ [ev] |}).

Definition set_loss_names (names : list string) : Tr unit :=
  fun self =>
    (Ret tt,
     {| self_workers := self_workers self; self_task := self_task self;
        self_epochs := self_epochs self;
        self_batch_size := self_batch_size self;
        self_testset := self_testset self; self_model := self_model self;
        self_data := self_data self;
        self_test_loader := self_test_loader self;
        self_epoch := self_epoch self;
        self_loss_names := names;
        self_train_validator := self_train_validator self;
        self_env_vars := self_env_vars self;
        self_collection_epochs := self_collection_epochs self;
        self_run := self_run self;
        trace := trace self |}).

Definition set_train_validator (v : option Validator) : Tr unit :=
  fun self =>
    (Ret tt,
     {| self_workers := self_workers self; self_task := self_task self;
        self_epochs := self_epochs self;
        self_batch_size := self_batch_size self;
        self_testset := self_testset self; self_model := self_model self;
        self_data := self_data self;
        self_test_loader := self_test_loader self;
        self_epoch := self_epoch self;
        self_loss_names := self_loss_names self;
        self_train_validator := v;
        self_env_vars := self_env_vars self;
        self_collection_epochs := self_collection_epochs self;
        self_run := self_run self;
        trace := trace self |}).

Definition set_env_vars (value : gmap string pyval) : Tr unit :=
  fun self =>
    (Ret tt,
     {|
        self_workers := self_workers self;
        self_task := self_task self;
        self_epochs := self_epochs self;
        self_batch_size := self_batch_size self;
        self_testset := self_testset self;
        self_model := self_model self;
        self_data := self_data self;
        self_test_loader := self_test_loader self;
        self_epoch := self_epoch self;
        self_loss_names := self_loss_names self;
        self_train_validator := self_train_validator self;
        self_env_vars := value;
        self_collection_epochs := self_collection_epochs self;
        self_run := self_run self;
        trace := trace self |}).

Definition set_collection_epochs (value : list Z) : Tr unit :=
  fun self =>
    (Ret tt,
     {|
        self_workers := self_workers self;
        self_task := self_task self;
        self_epochs := self_epochs self;
        self_batch_size := self_batch_size self;
        self_testset := self_testset self;
        self_model := self_model self;
        self_data := self_data self;
        self_test_loader := self_test_loader self;
        self_epoch := self_epoch self;
        self_loss_names := self_loss_names self;
        self_train_validator := self_train_validator self;
        self_env_vars := self_env_vars self;
        self_collection_epochs := value;
        self_run := self_run self;
        trace := trace self |}).

Definition set_run (value : option Run) : Tr unit :=
  fun self =>
    (Ret tt,
     {|
        self_workers := self_workers self;
        self_task := self_task self;
        self_epochs := self_epochs self;
        self_batch_size := self_batch_size self;
        self_testset := self_testset self;
        self_model := self_model self;
        self_data := self_data self;
        self_test_loader := self_test_loader self;
        self_epoch := self_epoch self;
        self_loss_names := self_loss_names self;
        self_train_validator := self_train_validator self;
        self_env_vars := self_env_vars self;
        self_collection_epochs := self_collection_epochs self;
        self_run := value;
        trace := trace self |}).

(** [d[key]] on a dict *)
Definition dict_item {V} (d : gmap string V) (key : string) : Exn + V :=
  match d !! key with
  | Some v => inr v
  | None => inl (KeyError key)
  end.

(** [tensor.max()] of the strides: an empty tensor has no maximum. *)
Definition stride_max (strides : list Q) : Exn + Q :=
  match strides with
  | [] => inl (OtherException "RuntimeError")
  | x :: rest =>
      inr (fold_left (fun m y => if Qle_bool m y then y else m) rest x)
  end.

(** The object [self] after the calls [evs] *)
Definition add_events (self : Trainer) (evs : list Event) : Trainer :=
  {| self_workers := self_workers self; self_task := self_task self;
     self_epochs := self_epochs self;
     self_batch_size := self_batch_size self;
     self_testset := self_testset self; self_model := self_model self;
     self_data := self_data self;
     self_test_loader := self_test_loader self;
     self_epoch := self_epoch self;
     self_loss_names := self_loss_names self;
     self_train_validator := self_train_validator self;
     self_env_vars := self_env_vars self;
     self_collection_epochs := self_collection_epochs self;
     self_run := self_run self;
     trace := trace self ++ evs |}.

(** The truth value of [getattr(dataset, "rect", False)] *)
Definition dataset_is_rect (dataset : Dataset) : bool :=
  match dataset_rect dataset with
  | Some rect => py_truthy rect
  | None => false
  end.

Section TrainerMethods.

Variable fw : Framework.

(** build_dataset (lines 72-82) *)
Definition build_dataset (img_path mode : string) (batch : option Z)
    (split : string) : Tr Dataset :=
  fun self =>
    (tdo top <- tlift (match self_model self with
                       | Some strides =>
                           match stride_max strides with
                           | inl e => inl e
                           | inr m => inr (Qtrunc m)
                           end
                       | None => inr 0
                       end) in
     let gs := Z.max top 32 in
     tdo table <- tlift (dict_item (self_data self) split) in
     let rect := String.eqb mode "val" in
     tdo _ <- emit (EvBuildDataset img_path batch mode rect gs table) in
     tlift (build_tlc_dataset fw img_path batch mode rect gs table)) self.

(** get_dataloader (lines 60-70); the distributed barrier around the
    dataset is not part of the model. *)
Definition get_dataloader (dataset_path : string) (batch_size rank : Z)
    (mode split : string) : Tr Loader :=
  if negb (String.eqb mode "train" || String.eqb mode "val") then
    traise (OtherException "AssertionError")
  else
    tdo dataset <- build_dataset dataset_path mode (Some batch_size) split in
    let shuffle := String.eqb mode "train" in
    tdo shuffle <-
      (if dataset_is_rect dataset && shuffle
       then tdo _ <- emit EvWarnRect in tret false
       else tret shuffle) in
    fun self =>
      (let workers := if String.eqb mode "train" then self_workers self
                      else self_workers self * 2 in
       tdo _ <- emit (EvBuildDataloader dataset batch_size workers shuffle rank) in
       tlift (build_dataloader fw dataset batch_size workers shuffle rank)) self.

(** get_validator (lines 91-98) *)
Definition get_validator (loader : option Loader) : Tr Validator :=
  tdo _ <- set_loss_names ["box_loss"; "cls_loss"; "dfl_loss"] in
  fun self =>
    (tdo loader <-
       (match loader with
        | Some l =>
            if negb (Nat.eqb (loader_len l) 0) then tret l
            else tlift (match self_test_loader self with
                        | Some t => inr t
                        | None => inl (OtherException "AttributeError")
                        end)
        | None => tlift (match self_test_loader self with
                         | Some t => inr t
                         | None => inl (OtherException "AttributeError")
                         end)
        end) in
     tdo _ <- emit (EvNewValidator loader (self_run self)) in
     tlift (new_validator fw loader (self_run self))) self.

(** The property train_validator (lines 50-58) *)
Definition train_validator : Tr (option Validator) :=
  fun self =>
    (tdo _ <-
       (match self_train_validator self with
        | Some _ => tret tt
        | None =>
            if (RANK fw =? -1) || (RANK fw =? 0) then
              tdo train_val_loader <-
                get_dataloader (self_testset self)
                  (if String.eqb (self_task self) "obb" then self_batch_size self
                   else self_batch_size self * 2)
                  (-1) "val" "train" in
              tdo v <- get_validator (Some train_val_loader) in
              set_train_validator (Some v)
            else tret tt
        end) in
     fun self' => (Ret (self_train_validator self'), self')) self.

(** validate (lines 100-106) *)
Definition validate : Tr pyval :=
  fun self =>
    (tdo disabled <- tlift (dict_item (self_env_vars self) "COLLECTION_DISABLE") in
     tdo collect <-
       (if py_truthy disabled then tret false
        else
          tdo val_only <-
            tlift (dict_item (self_env_vars self) "COLLECTION_VAL_ONLY") in
          if py_truthy val_only then tret false
          else tret (existsb (Z.eqb (self_epoch self))
                             (self_collection_epochs self))) in
     tdo _ <-
       (if collect : bool then
          tdo v <- train_validator in
          match v with
          | None => traise TypeError
          | Some v =>
              tdo _ <- emit (EvCallValidator v (self_epoch self)) in
              tcheck (call_validator fw v (self_epoch self))
          end
        else tret tt) in
     tdo _ <- emit EvSuperValidate in
     tlift (super_validate fw)) self.

(** _do_train (lines 108-112) *)
Definition do_train (world_size : Z) : Tr unit :=
  tdo _ <- emit (EvSuperDoTrain world_size) in
  tdo _ <- tcheck (super_do_train fw world_size) in
  fun self =>
    (match self_run self with
     | None => traise (OtherException "AttributeError")
     | Some run =>
         tdo table <- tlift (dict_item (self_data self) "val") in
         tdo _ <- emit (EvReduceEmbeddings run (table_url table) "pacmap" 2) in
         tcheck (reduce_embeddings fw run (table_url table) "pacmap" 2)
     end) self.

(** __init__ (lines 36-48), on the object [super().__init__] has set up *)
Definition init : Tr unit :=
  tdo _ <- set_train_validator None in
  tdo env <- tlift (parse_environment_variables fw) in
  tdo _ <- set_env_vars env in
  fun self =>
    (tdo start <-
       tlift (dict_item (self_env_vars self) "COLLECTION_EPOCH_START") in
     tdo interval <-
       tlift (dict_item (self_env_vars self) "COLLECTION_EPOCH_INTERVAL") in
     tdo disabled <-
       tlift (dict_item (self_env_vars self) "COLLECTION_DISABLE") in
     tdo epochs <- tlift (get_metrics_collection_epochs fw start
                            (self_epochs self) interval disabled) in
     tdo _ <- set_collection_epochs epochs in
     tdo _ <- set_run None in
     tdo disabled <-
       tlift (dict_item (self_env_vars self) "COLLECTION_DISABLE") in
     if py_truthy disabled then tret tt
     else
       tdo table <- tlift (dict_item (self_data self) "train") in
       tdo _ <- emit (EvTlcInit (table_project table)) in
       tdo run <- tlift (tlc_init fw (table_project table)) in
       set_run (Some run)) self.

End TrainerMethods.

(** A framework and a trainer for the examples: rank [rank], collection
    switched off or on by [disable], a loader of four batches. *)
Definition sample_table (name : string) : Table :=
  {| table_url := name; table_project := "barcodes" |}.

Definition sample_env (disable : bool) : gmap string pyval :=
  <["COLLECTION_DISABLE" := PBool disable]>
    (<["COLLECTION_VAL_ONLY" := PBool false]>
       (<["COLLECTION_EPOCH_START" := PInt 0]>
          (<["COLLECTION_EPOCH_INTERVAL" := PInt 1]> (∅ : gmap string pyval)))).

Definition sample_framework (rank : Z) (disable : bool) : Framework :=
  {| RANK := rank;
     build_tlc_dataset := fun _ _ _ rect _ _ =>
       inr {| dataset_id := 1; dataset_rect := Some (PBool rect) |};
     build_dataloader := fun _ _ _ _ _ => inr {| loader_id := 2; loader_len := 4 |};
     new_validator := fun _ _ => inr {| validator_id := 3 |};
     call_validator := fun _ _ => None;
     super_validate := inr (PFloat (1 # 2));
     super_do_train := fun _ => None;
     reduce_embeddings := fun _ _ _ _ => None;
     parse_environment_variables := inr (sample_env disable);
     get_metrics_collection_epochs := fun _ _ _ _ => inr [0; 1; 2];
     tlc_init := fun _ => inr {| run_id := 7 |} |}.

Definition sample_trainer (disable : bool) : Trainer :=
  {| self_workers := 8; self_task := "detect"; self_epochs := 3;
     self_batch_size := 16; self_testset := "val.yaml";
     self_model := Some [8%Q; 16%Q; 32%Q];
     self_data := <["train" := sample_table "train"]>
                    (<["val" := sample_table "val"]> (∅ : gmap string Table));
     self_test_loader := Some {| loader_id := 5; loader_len := 2 |};
     self_epoch := 1; self_loss_names := [];
     self_train_validator := None;
     self_env_vars := sample_env disable;
     self_collection_epochs := [0; 1; 2];
     self_run := None;
     trace := [] |}.

(** The sample trainer after its train-set validator has been built *)
Definition validating_trainer : Trainer :=
  {| self_workers := 8; self_task := "detect"; self_epochs := 3;
     self_batch_size := 16; self_testset := "val.yaml";
     self_model := Some [8%Q; 16%Q; 32%Q];
     self_data := <["train" := sample_table "train"]>
                    (<["val" := sample_table "val"]> (∅ : gmap string Table));
     self_test_loader := Some {| loader_id := 5; loader_len := 2 |};
     self_epoch := 1; self_loss_names := ["box_loss"; "cls_loss"; "dfl_loss"];
     self_train_validator := Some {| validator_id := 3 |};
     self_env_vars := sample_env false;
     self_collection_epochs := [0; 1; 2];
     self_run := None;
     trace := [] |}.

(** ** Tactics that unfold a run *)

Ltac unfold_trainer :=
  unfold validate, train_validator, get_validator, get_dataloader,
    build_dataset, do_train, init, tbind, tlift, tcheck, tret, traise, emit,
    set_loss_names, set_train_validator, set_env_vars, set_collection_epochs,
    set_run, dict_item.

Ltac project_trainer :=
  cbn beta iota zeta delta
    [fst snd self_workers self_task self_epochs self_batch_size self_testset
     self_model self_data self_test_loader self_epoch self_loss_names
     self_train_validator self_env_vars self_collection_epochs self_run trace].

Ltac project_trainer_in H :=
  cbn beta iota zeta delta
    [fst snd self_workers self_task self_epochs self_batch_size self_testset
     self_model self_data self_test_loader self_epoch self_loss_names
     self_train_validator self_env_vars self_collection_epochs self_run trace]
    in H.


Ltac unfold_wrapper :=
  unfold check_train_batch_size, run_in_subprocess, parse_output, outer_clauses,
    cleanup, enter_frame, NamedTemporaryFile, torch_save, assign_tmp_file_path,
    read_tmp_file_path, subprocess_run, unlink, empty_cache, loads,
    first_param_device, try_finally, try_except, bind, lift, ret, raise,
    log, modify.

Ltac project_state :=
  cbn beta iota zeta delta
    [fst snd fs logs spawned profiler_runs cache_flushes tmp_file_path
     is_CalledProcessError is_JSONDecodeError is_Exception].

Ltac unfold_estimator :=
  unfold autobatch, estimate, check_range, fallback_clause, profile,
    first_param_device, try_except, bind, lift, ret, raise, log, modify.

Ltac case_wrapper :=
  repeat match goal with
         | |- context [torch_save_raises ?h ?m ?n] =>
             destruct (torch_save_raises h m n) eqn:?; project_state
         | |- context [child_process ?h ?c] =>
             destruct (child_process h c) eqn:?; project_state
         | |- context [Z.eqb (returncode ?r) 0] =>
             destruct (Z.eqb (returncode r) 0) eqn:?; project_state
         | |- context [json_loads ?h ?t] =>
             destruct (json_loads h t) eqn:?; project_state
         | |- context [py_contains ?k ?o] =>
             destruct (py_contains k o) as [?|[|]] eqn:?; project_state
         | |- context [py_getitem ?o ?k] =>
             destruct (py_getitem o k) eqn:?; project_state
         | |- context [is_JSONDecodeError ?e] =>
             is_var e; destruct e; project_state
         | |- context [is_CalledProcessError ?e] =>
             is_var e; destruct e; project_state
         | |- context [is_Exception ?e] =>
             is_var e; destruct e; project_state
         end.

(** ** Stepping through a run *)

Lemma cpu_class_iff (device : Device) :
  cpu_class device = true <-> dev_type device = "cpu" \/ dev_type device = "mps".
Proof.
  unfold cpu_class. rewrite orb_true_iff, !String.eqb_eq. tauto.
Qed.

(** ** The device check (lines 33-36 and 106-109) *)

(** C5.  On a model whose first parameter lives on a "cpu" or "mps" device,
    check_train_batch_size returns DEFAULT_CFG.batch without starting a child
    process or creating a file, and autobatch returns its [batch_size]
    argument without running the profiler; each logs its notice. *)
Theorem cpu_class_short_circuit (host : Host) (model : Model) (device : Device)
    (rest : list Device) (imgsz : Z) (amp : bool) (batch fraction : Q)
    (batch_size : Z) (s : State) :
  param_devices model = device :: rest ->
  dev_type device = "cpu" \/ dev_type device = "mps" ->
  let wrapper := check_train_batch_size host model imgsz amp batch s in
  let estimator := autobatch host model imgsz fraction batch_size s in
  fst wrapper = Ret (PInt (DEFAULT_CFG_batch host)) /\
  spawned (snd wrapper) = spawned s /\
  fs (snd wrapper) = fs s /\
  logs (snd wrapper) =
    logs s ++ [(INFO, MsgComputingBatch imgsz);
               (INFO, MsgCudaNotDetected (DEFAULT_CFG_batch host))] /\
  fst estimator = Ret batch_size /\
  profiler_runs (snd estimator) = profiler_runs s /\
  logs (snd estimator) =
    logs s ++ [(INFO, MsgAutobatchStart imgsz (fraction * 100));
               (INFO, MsgIntendedForCuda batch_size)].
Proof.
  intros Hparams Hcpu. apply cpu_class_iff in Hcpu.
  unfold check_train_batch_size, autobatch, first_param_device, bind; simpl.
  rewrite Hparams; simpl. rewrite Hcpu; simpl.
  rewrite <- !app_assoc. simpl. repeat split; reflexivity.
Qed.

Lemma cpu_class_short_circuit_witness :
  let wrapper :=
    check_train_batch_size (machine None (inl OSError) (fun _ => None) (inl OSError))
                           cpu_model 640 true (-1) boot in
  let estimator :=
    autobatch (machine None (inl OSError) (fun _ => None) (inl OSError))
              cpu_model 640 (3 # 5) 16 boot in
  fst wrapper = Ret (PInt 16) /\ spawned (snd wrapper) = 0%nat /\
  fst estimator = Ret 16 /\ profiler_runs (snd estimator) = 0%nat.
Proof.
  pose proof (cpu_class_short_circuit
                (machine None (inl OSError) (fun _ => None) (inl OSError))
                cpu_model cpu [] 640 true (-1) (3 # 5) 16 boot
                eq_refl (or_introl eq_refl))
    as (Hret & Hspawned & _ & _ & Hret' & Hruns & _).
  intros wrapper estimator.
  exact (conj Hret (conj Hspawned (conj Hret' Hruns))).
Defined.

(** ** The wrapper on an accelerator (lines 38-87) *)

Lemma unlinked_absent (name : string) (files : gset string) :
  ~ elem_of name (files ∖ {[name]}).
Proof.
  rewrite elem_of_difference, elem_of_singleton. tauto.
Qed.

Section Wrapper.

Variables (host : Host) (model : Model) (device : Device) (rest : list Device).
Variables (imgsz : Z) (amp : bool) (batch : Q) (s : State).
Variables (name : string) (result : CompletedProcess).

Hypothesis model_device : param_devices model = device :: rest.
Hypothesis accelerator : cpu_class device = false.
Hypothesis file_created : tempfile_name host = inr name.
Hypothesis model_saved : torch_save_raises host model name = None.
Hypothesis child_ran :
  child_process host {| code_path := name; code_device := device;
                        code_imgsz := imgsz;
                        code_fraction := memory_fraction batch;
                        code_amp := amp |} = inr result.

Let call := check_train_batch_size host model imgsz amp batch s.

(** A child that exits with a non-zero status: the clause of lines 75-78 logs
    three warnings and has no return statement. *)
Lemma child_failure_returns_None :
  returncode result <> 0 ->
  fst call = Ret PNone /\
  logs (snd call) =
    logs s ++ [(INFO, MsgComputingBatch imgsz);
               (WARNING, MsgSubprocessError
                  (CalledProcessError (returncode result) (stdout result)
                                      (stderr result)));
               (WARNING, MsgSubprocessStdout (stdout result));
               (WARNING, MsgSubprocessStderr (stderr result))] /\
  ~ elem_of name (fs (snd call)).
Proof using All.
  intros Hstatus. apply Z.eqb_neq in Hstatus.
  subst call. unfold_wrapper. project_state.
  rewrite model_device, accelerator. project_state.
  rewrite file_created. project_state.
  rewrite model_saved. project_state.
  rewrite child_ran. project_state.
  rewrite Hstatus. project_state.
  rewrite <- !app_assoc.
  split; [reflexivity | split; [reflexivity | apply unlinked_absent]].
Qed.

(** C4, as amended.  When the child exits with status 0 and json.loads raises
    JSONDecodeError on its standard output, check_train_batch_size logs the
    parse failure with the
    child's stdout and stderr at level ERROR, then the two warnings of the
    outer handler, returns DEFAULT_CFG.batch and leaves no temporary file. *)
Theorem malformed_output_gives_default :
  returncode result = 0 ->
  json_loads host (stdout result) = None ->
  fst call = Ret (PInt (DEFAULT_CFG_batch host)) /\
  logs (snd call) =
    logs s ++ [(INFO, MsgComputingBatch imgsz);
               (ERROR, MsgParseFailed (stdout result) (stderr result));
               (WARNING, MsgError JSONDecodeError);
               (WARNING, MsgUsingDefault (DEFAULT_CFG_batch host))] /\
  ~ elem_of name (fs (snd call)).
Proof using All.
  intros Hstatus Hjson. apply Z.eqb_eq in Hstatus.
  subst call. unfold_wrapper. project_state.
  rewrite model_device, accelerator. project_state.
  rewrite file_created. project_state.
  rewrite model_saved. project_state.
  rewrite child_ran. project_state.
  rewrite Hstatus. project_state.
  rewrite Hjson. project_state.
  rewrite <- !app_assoc.
  split; [reflexivity | split; [reflexivity | apply unlinked_absent]].
Qed.

(** C9, as amended.  When the child exits with status 0 and its output
    decodes to an object that has a "batch_size" member and no "error" member,
    check_train_batch_size returns that member as it is, whatever value it
    holds, and logs it. *)
Theorem reported_batch_size_returned (d : list (string * pyval)) (v : pyval) :
  returncode result = 0 ->
  json_loads host (stdout result) = Some (PDict d) ->
  dict_get "batch_size" d = Some v ->
  dict_get "error" d = None ->
  fst call = Ret v /\
  logs (snd call) =
    logs s ++ [(INFO, MsgComputingBatch imgsz); (INFO, MsgDetermined v)] /\
  ~ elem_of name (fs (snd call)).
Proof using All.
  intros Hstatus Hjson Hsize Herror. apply Z.eqb_eq in Hstatus.
  subst call. unfold_wrapper. project_state.
  rewrite model_device, accelerator. project_state.
  rewrite file_created. project_state.
  rewrite model_saved. project_state.
  rewrite child_ran. project_state.
  rewrite Hstatus. project_state.
  rewrite Hjson. unfold py_contains, py_getitem. rewrite Herror, Hsize.
  project_state.
  rewrite <- !app_assoc.
  split; [reflexivity | split; [reflexivity | apply unlinked_absent]].
Qed.

(** An object with an "error" member takes the path of line 67, also when it
    has a "batch_size" member. *)
Lemma error_member_gives_default (d : list (string * pyval)) (msg : pyval) :
  returncode result = 0 ->
  json_loads host (stdout result) = Some (PDict d) ->
  dict_get "error" d = Some msg ->
  fst call = Ret (PInt (DEFAULT_CFG_batch host)) /\
  logs (snd call) =
    logs s ++ [(INFO, MsgComputingBatch imgsz);
               (WARNING, MsgError (RuntimeError msg));
               (WARNING, MsgUsingDefault (DEFAULT_CFG_batch host))] /\
  ~ elem_of name (fs (snd call)).
Proof using All.
  intros Hstatus Hjson Herror. apply Z.eqb_eq in Hstatus.
  subst call. unfold_wrapper. project_state.
  rewrite model_device, accelerator. project_state.
  rewrite file_created. project_state.
  rewrite model_saved. project_state.
  rewrite child_ran. project_state.
  rewrite Hstatus. project_state.
  rewrite Hjson. unfold py_contains, py_getitem. rewrite Herror.
  project_state.
  rewrite <- !app_assoc.
  split; [reflexivity | split; [reflexivity | apply unlinked_absent]].
Qed.

End Wrapper.

(** When torch.save raises, line 44 is not reached: the handler of lines 79-82
    runs, then the [finally] clause reads the unbound local. *)
Lemma save_failure_leaks_file (host : Host) (model : Model) (device : Device)
    (rest : list Device) (imgsz : Z) (amp : bool) (batch : Q) (s : State)
    (name : string) (e : Exn) :
  param_devices model = device :: rest ->
  cpu_class device = false ->
  tempfile_name host = inr name ->
  torch_save_raises host model name = Some e ->
  let call := check_train_batch_size host model imgsz amp batch s in
  fst call = Raise (UnboundLocalError "tmp_file_path") /\
  elem_of name (fs (snd call)) /\
  cache_flushes (snd call) = cache_flushes s.
Proof.
  intros Hparams Hdev Hfile Hsave call.
  subst call. unfold_wrapper. project_state.
  rewrite Hparams, Hdev. project_state.
  rewrite Hfile. project_state.
  rewrite Hsave. project_state.
  destruct e; project_state;
    (split; [reflexivity | split; [set_solver | reflexivity]]).
Qed.

(** Every call that creates the file and comes back with a value has removed
    the file. *)
Lemma returned_value_no_file (host : Host) (model : Model) (device : Device)
    (rest : list Device) (imgsz : Z) (amp : bool) (batch : Q) (s : State)
    (name : string) (v : pyval) :
  param_devices model = device :: rest ->
  cpu_class device = false ->
  tempfile_name host = inr name ->
  let call := check_train_batch_size host model imgsz amp batch s in
  fst call = Ret v ->
  ~ elem_of name (fs (snd call)).
Proof.
  intros Hparams Hdev Hfile call.
  subst call. unfold_wrapper. project_state.
  rewrite Hparams, Hdev. project_state.
  rewrite Hfile. project_state.
  repeat match goal with
         | |- context [torch_save_raises ?h ?m ?n] =>
             destruct (torch_save_raises h m n) eqn:?; project_state
         | |- context [child_process ?h ?c] =>
             destruct (child_process h c) eqn:?; project_state
         | |- context [Z.eqb (returncode ?r) 0] =>
             destruct (Z.eqb (returncode r) 0) eqn:?; project_state
         | |- context [json_loads ?h ?t] =>
             destruct (json_loads h t) eqn:?; project_state
         | |- context [py_contains ?k ?o] =>
             destruct (py_contains k o) as [?|[|]] eqn:?; project_state
         | |- context [py_getitem ?o ?k] =>
             destruct (py_getitem o k) eqn:?; project_state
         | |- context [is_JSONDecodeError ?e] =>
             is_var e; destruct e; project_state
         | |- context [is_CalledProcessError ?e] =>
             is_var e; destruct e; project_state
         | |- context [is_Exception ?e] =>
             is_var e; destruct e; project_state
         end;
    intros Hret; try discriminate Hret; apply unlinked_absent.
Qed.

(** *** The wrapper on the sample machine *)

Lemma malformed_output_gives_default_witness :
  fst (check_train_batch_size
         (machine None (exited 0 traceback_text) sample_decoder (inl OSError))
         gpu_model 640 true (-1) boot) = Ret (PInt 16).
Proof.
  exact (proj1 (malformed_output_gives_default
                  (machine None (exited 0 traceback_text) sample_decoder
                           (inl OSError))
                  gpu_model cuda0 [cuda0] 640 true (-1) boot tmp_name
                  {| returncode := 0; stdout := traceback_text;
                     stderr := "stderr of the child" |}
                  eq_refl eq_refl eq_refl eq_refl eq_refl eq_refl eq_refl)).
Defined.

(** C4, as stated, fails.  The child is killed (exit status 137) after it
    printed the first line of a traceback, a text json.loads rejects.
    subprocess.run(check=True) raises CalledProcessError before line 65 is
    reached, so the text is never parsed: the call returns None, not
    DEFAULT_CFG.batch = 16, and no record of level ERROR is logged. *)
Lemma malformed_output_counterexample :
  let host :=
    machine None (exited 137 traceback_text) sample_decoder (inl OSError) in
  let call := check_train_batch_size host gpu_model 640 true (-1) boot in
  json_loads host traceback_text = None /\
  fst call = Ret PNone /\
  fst call <> Ret (PInt (DEFAULT_CFG_batch host)) /\
  map fst (logs (snd call)) = [INFO; WARNING; WARNING; WARNING] /\
  ~ In (ERROR, MsgParseFailed traceback_text "stderr of the child")
       (logs (snd call)).
Proof.
  cbv zeta.
  destruct (child_failure_returns_None
              (machine None (exited 137 traceback_text) sample_decoder
                       (inl OSError))
              gpu_model cuda0 [cuda0] 640 true (-1) boot tmp_name
              {| returncode := 137; stdout := traceback_text;
                 stderr := "stderr of the child" |}
              eq_refl eq_refl eq_refl eq_refl eq_refl)
    as (Hret & Hlogs & _); [discriminate |].
  rewrite Hret, Hlogs.
  split; [reflexivity | split; [reflexivity | split; [discriminate |]]].
  split; [reflexivity |].
  cbn. intros [H | [H | [H | [H | []]]]]; discriminate H.
Qed.

Lemma reported_batch_size_returned_witness :
  fst (check_train_batch_size
         (machine None (exited 0 negative_text) sample_decoder (inl OSError))
         gpu_model 640 true (-1) boot) = Ret (PInt (-3)).
Proof.
  exact (proj1 (reported_batch_size_returned
                  (machine None (exited 0 negative_text) sample_decoder
                           (inl OSError))
                  gpu_model cuda0 [cuda0] 640 true (-1) boot tmp_name
                  {| returncode := 0; stdout := negative_text;
                     stderr := "stderr of the child" |}
                  eq_refl eq_refl eq_refl eq_refl eq_refl
                  [("batch_size", PInt (-3))] (PInt (-3))
                  eq_refl eq_refl eq_refl eq_refl)).
Defined.

(** C9, as stated, fails.  The child exits with status 0 and prints an object
    with the members "error" and "batch_size": 8; the call returns
    DEFAULT_CFG.batch = 16, not the reported 8. *)
Lemma reported_batch_size_counterexample :
  let host :=
    machine None (exited 0 both_members_text) sample_decoder (inl OSError) in
  let d := [("error", PStr "CUDA out of memory"); ("batch_size", PInt 8)] in
  json_loads host both_members_text = Some (PDict d) /\
  dict_get "batch_size" d = Some (PInt 8) /\
  fst (check_train_batch_size host gpu_model 640 true (-1) boot)
    = Ret (PInt 16) /\
  fst (check_train_batch_size host gpu_model 640 true (-1) boot)
    <> Ret (PInt 8).
Proof.
  cbv zeta.
  assert (Hrun : fst (check_train_batch_size
                        (machine None (exited 0 both_members_text)
                                 sample_decoder (inl OSError))
                        gpu_model 640 true (-1) boot) = Ret (PInt 16)).
  { exact (proj1 (error_member_gives_default
                    (machine None (exited 0 both_members_text) sample_decoder
                             (inl OSError))
                    gpu_model cuda0 [cuda0] 640 true (-1) boot tmp_name
                    {| returncode := 0; stdout := both_members_text;
                       stderr := "stderr of the child" |}
                    eq_refl eq_refl eq_refl eq_refl eq_refl
                    [("error", PStr "CUDA out of memory"); ("batch_size", PInt 8)]
                    (PStr "CUDA out of memory")
                    eq_refl eq_refl eq_refl)). }
  split; [reflexivity | split; [reflexivity | split; [exact Hrun |]]].
  rewrite Hrun. discriminate.
Qed.

(** C1, the failing run.  The child exits with status 1: the call returns
    None, where the claim promises DEFAULT_CFG.batch = 16. *)
Theorem child_failure_breaks_contract :
  let host := machine None (exited 1 traceback_text) sample_decoder (inl OSError) in
  let call := check_train_batch_size host gpu_model 640 true (-1) boot in
  fst call = Ret PNone /\
  logs (snd call) =
    [(INFO, MsgComputingBatch 640);
     (WARNING, MsgSubprocessError
                 (CalledProcessError 1 traceback_text "stderr of the child"));
     (WARNING, MsgSubprocessStdout traceback_text);
     (WARNING, MsgSubprocessStderr "stderr of the child")].
Proof.
  cbv zeta.
  destruct (child_failure_returns_None
              (machine None (exited 1 traceback_text) sample_decoder (inl OSError))
              gpu_model cuda0 [cuda0] 640 true (-1) boot tmp_name
              {| returncode := 1; stdout := traceback_text;
                 stderr := "stderr of the child" |}
              eq_refl eq_refl eq_refl eq_refl eq_refl)
    as (Hret & Hlogs & _); [discriminate |].
  split; [exact Hret | exact Hlogs].
Qed.

(** C7, the failing run.  torch.save raises: the call ends with an
    UnboundLocalError from the [finally] clause, the file it created is still
    there and the cache was not released. *)
Theorem save_failure_keeps_file :
  let host :=
    machine (Some (OtherException "PicklingError")) (exited 0 negative_text)
            sample_decoder (inl OSError) in
  let call := check_train_batch_size host gpu_model 640 true (-1) boot in
  fst call = Raise (UnboundLocalError "tmp_file_path") /\
  elem_of tmp_name (fs (snd call)) /\
  cache_flushes (snd call) = 0%nat.
Proof.
  exact (save_failure_leaks_file
           (machine (Some (OtherException "PicklingError"))
                    (exited 0 negative_text) sample_decoder (inl OSError))
           gpu_model cuda0 [cuda0] 640 true (-1) boot tmp_name
           (OtherException "PicklingError") eq_refl eq_refl eq_refl eq_refl).
Qed.

(** ** The estimator on an accelerator (lines 114-147) *)

Lemma comprehension_lift {A B} (g : A -> Exn + B) (l : list A) :
  exists o, forall s, comprehension (fun a => lift (g a)) l s = (o, s).
Proof.
  induction l as [|a l [o IH]]; simpl.
  - exists (Ret []). reflexivity.
  - destruct (g a) as [e|b] eqn:Hg.
    + exists (Raise e). intros s. reflexivity.
    + destruct o as [bs|e].
      * exists (Ret (b :: bs)). intros s. unfold bind, lift, ret.
        rewrite IH. reflexivity.
      * exists (Raise e). intros s. unfold bind, lift, ret.
        rewrite IH. reflexivity.
Qed.

Lemma index_None_found (results : list (option ProfileRow)) (i : Z) :
  index_None results = inr i -> has_None results = true /\ 0 <= i.
Proof.
  revert i. induction results as [|[x|] results IH]; simpl; intros i H.
  - discriminate.
  - destruct (index_None results) as [e|j]; [discriminate |].
    injection H as <-. destruct (IH j eq_refl). split; [assumption | lia].
  - injection H as <-. split; [reflexivity | lia].
Qed.

Lemma index_None_raises (results : list (option ProfileRow)) (e : Exn) :
  index_None results = inl e -> e = ValueError.
Proof.
  induction results as [|[x|] results IH]; simpl; intros H.
  - congruence.
  - destruct (index_None results); [| discriminate].
    injection H as <-. auto.
  - discriminate.
Qed.

Lemma list_getitem_raises (l : list Z) (i : Z) (e : Exn) :
  list_getitem l i = inl e -> e = IndexError.
Proof.
  unfold list_getitem.
  destruct (_ <? 0); [congruence |].
  destruct (l !! _); congruence.
Qed.

Lemma clamp_to_safe_catchable (results : list (option ProfileRow)) (b : Z) :
  catchable (clamp_to_safe results b).
Proof.
  intros e. unfold clamp_to_safe.
  destruct (has_None results); [| discriminate].
  destruct (index_None results) as [e'|i] eqn:Hi.
  - intros [= <-]. now rewrite (index_None_raises _ _ Hi).
  - destruct (list_getitem batch_sizes i) as [e'|failed] eqn:Hfailed.
    + intros [= <-]. now rewrite (list_getitem_raises _ _ _ Hfailed).
    + destruct (b >=? failed); [| discriminate].
      intros H. now rewrite (list_getitem_raises _ _ _ H).
Qed.

Lemma py_int_catchable (x : npfloat) : catchable (py_int x).
Proof. intros e. destruct x; simpl; intros [= <-]; reflexivity. Qed.

(** A candidate index that [batch_sizes] has. *)
Lemma batch_sizes_index (i failed : Z) :
  0 <= i -> list_getitem batch_sizes i = inr failed ->
  (i = 0 /\ failed = 1) \/ (i = 1 /\ failed = 2) \/ (i = 2 /\ failed = 4) \/
  (i = 3 /\ failed = 8) \/ (i = 4 /\ failed = 16).
Proof.
  intros Hi. unfold list_getitem.
  destruct (i <? 0) eqn:Hneg; [lia |]. rewrite Hneg.
  assert (Hcases : i = 0 \/ i = 1 \/ i = 2 \/ i = 3 \/ i = 4 \/ 5 <= i) by lia.
  destruct Hcases as [->|[->|[->|[->|[->|Hbig]]]]]; simpl;
    try (intros [= <-]; tauto).
  replace (Z.to_nat i) with (5 + (Z.to_nat i - 5))%nat by lia.
  simpl. discriminate.
Qed.

Section Estimator.

Variables (host : Host) (model : Model) (device : Device) (rest : list Device).
Variables (imgsz : Z) (fraction : Q) (batch_size : Z) (s : State).
Variables (total reserved allocated : Z).

Hypothesis model_device : param_devices model = device :: rest.
Hypothesis accelerator : cpu_class device = false.
Hypothesis no_benchmark : cudnn_benchmark host = false.
Hypothesis total_read : total_memory host device = inr total.
Hypothesis reserved_read : memory_reserved host device = inr reserved.
Hypothesis allocated_read : memory_allocated host device = inr allocated.

Local Abbreviation free := (gib total - (gib reserved + gib allocated))%Q.
Local Abbreviation body :=
  (estimate host model device imgsz fraction batch_size
            (gib total) (gib reserved) (gib allocated) free).
Local Abbreviation call := (autobatch host model imgsz fraction batch_size s).

(** What the fit answers does not depend on the state, and it logs nothing. *)
Lemma fit_solution_run (f : Q) :
  exists o, forall s0,
    fst (fit_solution host model device imgsz f fraction s0) = o /\
    logs (snd (fit_solution host model device imgsz f fraction s0)) = logs s0.
Proof.
  unfold fit_solution.
  destruct (comprehension_lift (fun b => torch_empty host [b; 3; imgsz; imgsz])
                               batch_sizes) as [[img|e] Himg].
  - destruct (profile_result host img model 3 device) as [e|results] eqn:Hprofile.
    { exists (Raise e). intros s0. unfold bind, profile. rewrite Himg.
      unfold modify, lift. rewrite Hprofile. split; reflexivity. }
    destruct (np_polyfit host (take (length (memories results)) batch_sizes)
                         (memories results)) as [e|p] eqn:Hfit.
    { exists (Raise e). intros s0. unfold bind, profile. rewrite Himg.
      unfold modify, lift. rewrite Hprofile. simpl. rewrite Hfit.
      split; reflexivity. }
    destruct (py_int (np_div (f * fraction - snd p) (fst p))) as [e|b] eqn:Hint.
    { exists (Raise e). intros s0. unfold bind, profile. rewrite Himg.
      unfold modify, lift. rewrite Hprofile. simpl. rewrite Hfit. simpl.
      rewrite Hint. split; reflexivity. }
    exists (Ret (results, p, b)). intros s0. unfold bind, profile. rewrite Himg.
    unfold modify, lift. rewrite Hprofile. simpl. rewrite Hfit. simpl.
    rewrite Hint. split; reflexivity.
  - exists (Raise e). intros s0. unfold bind. rewrite Himg. split; reflexivity.
Qed.

Lemma fit_solution_any_state (f : Q) (s1 s2 : State) :
  fst (fit_solution host model device imgsz f fraction s1) =
  fst (fit_solution host model device imgsz f fraction s2).
Proof.
  destruct (fit_solution_run f) as [o Ho].
  destruct (Ho s1) as [-> _]. destruct (Ho s2) as [-> _]. reflexivity.
Qed.

(** An exception of the fit is one of a library call or of [int()]. *)
Lemma fit_solution_catchable (f : Q) (s0 : State) (e : Exn) :
  (forall sh, catchable (torch_empty host sh)) ->
  (forall img, catchable (profile_result host img model 3 device)) ->
  (forall xs ys, catchable (np_polyfit host xs ys)) ->
  fst (fit_solution host model device imgsz f fraction s0) = Raise e ->
  is_Exception e = true.
Proof.
  intros Hempty Hprofile Hpolyfit. unfold fit_solution.
  assert (Himg : forall l s1 e1,
             fst (comprehension
                    (fun b => lift (torch_empty host [b; 3; imgsz; imgsz])) l s1)
               = Raise e1 -> is_Exception e1 = true).
  { induction l as [|b l IH]; simpl; intros s1 e1; [discriminate |].
    unfold bind, lift at 1.
    destruct (torch_empty host [b; 3; imgsz; imgsz]) as [e2|x] eqn:Hx; simpl.
    - intros [= <-]. exact (Hempty _ _ Hx).
    - destruct (comprehension _ l s1) as [[bs|e2] s2] eqn:Hl; simpl.
      + discriminate.
      + intros [= <-]. apply (IH s1). now rewrite Hl. }
  unfold bind at 1.
  destruct (comprehension _ batch_sizes s0) as [[img|e1] s1] eqn:Hrun.
  - unfold bind, profile, modify, lift.
    destruct (profile_result host img model 3 device) as [e2|results] eqn:Hp;
      simpl.
    { intros [= <-]. exact (Hprofile _ _ Hp). }
    destruct (np_polyfit host _ (memories results)) as [e2|p] eqn:Hfit; simpl.
    { intros [= <-]. exact (Hpolyfit _ _ _ Hfit). }
    destruct (py_int _) as [e2|b] eqn:Hint; simpl.
    { intros [= <-]. exact (py_int_catchable _ _ Hint). }
    discriminate.
  - simpl. intros [= <-]. apply (Himg batch_sizes s0). now rewrite Hrun.
Qed.

(** Lines 105-122 on an accelerator: two log records, then the [try]. *)
Lemma autobatch_enters_try :
  exists s0,
    logs s0 = logs s ++ [(INFO, MsgAutobatchStart imgsz (fraction * 100));
                         (INFO, MsgMemory (gib total) (gib reserved)
                                          (gib allocated) free)] /\
    profiler_runs s0 = profiler_runs s /\
    call = try_except body (fallback_clause batch_size) s0.
Proof using model_device accelerator no_benchmark total_read reserved_read
  allocated_read.
  eexists. split; [| split]; cycle 2.
  - unfold autobatch, first_param_device, bind at 1 2, log at 1, modify.
    rewrite model_device. simpl. unfold bind at 1. unfold ret at 1.
    rewrite accelerator, no_benchmark.
    unfold bind at 1. rewrite total_read. simpl.
    unfold bind at 1. rewrite reserved_read. simpl.
    unfold bind at 1. rewrite allocated_read. simpl.
    unfold bind at 1, log at 1, modify. reflexivity.
  - simpl. rewrite <- app_assoc. reflexivity.
  - reflexivity.
Qed.

(** The body after a fit that answered [b0], clamped to [b]. *)
Lemma estimate_run (results : list (option ProfileRow)) (p : Q * Q) (b0 b : Z)
    (s0 : State) :
  fst (fit_solution host model device imgsz free fraction s) = Ret (results, p, b0) ->
  clamp_to_safe results b0 = inr b ->
  let v := if outside_safe_range b then batch_size else b in
  exists s1,
    body s0 = (Ret v, s1) /\
    logs s1 =
      logs s0 ++ (if outside_safe_range b then [(INFO, MsgAnomaly batch_size)]
                  else [])
              ++ [(INFO, MsgUsingBatch v
                           (np_div (polyval p v + gib reserved + gib allocated)
                                   (gib total)))].
Proof.
  intros Hfit Hclamp v. subst v.
  rewrite (fit_solution_any_state _ s s0) in Hfit.
  destruct (fit_solution_run free) as [o Ho]. destruct (Ho s0) as [_ Hlogs].
  unfold estimate, bind at 1.
  destruct (fit_solution host model device imgsz free fraction s0) as [o' s1].
  simpl in Hfit, Hlogs. subst o'.
  unfold bind at 1, lift at 1. rewrite Hclamp. unfold ret at 1.
  unfold check_range, bind at 1.
  destruct (outside_safe_range b); simpl; eexists; (split; [reflexivity |]);
    simpl; rewrite Hlogs.
  - rewrite <- app_assoc. reflexivity.
  - reflexivity.
Qed.

(** The body when the fit or the clamp raises. *)
Lemma estimate_raises (e : Exn) (s0 : State) :
  fst (body s) = Raise e ->
  exists s1, body s0 = (Raise e, s1) /\ logs s1 = logs s0.
Proof.
  destruct (fit_solution_run free) as [o Ho].
  destruct (Ho s) as [Hs _]. destruct (Ho s0) as [Hs0 Hlogs].
  destruct (fit_solution host model device imgsz free fraction s)
    as [o1 s1] eqn:Hrun.
  destruct (fit_solution host model device imgsz free fraction s0)
    as [o2 s2] eqn:Hrun0.
  simpl in Hs, Hs0, Hlogs. subst o1 o2.
  unfold estimate, bind. rewrite Hrun, Hrun0.
  destruct o as [[[results p] b0]|e0];
    [| simpl; intros [= <-]; eexists; split; [reflexivity | assumption]].
  unfold lift.
  destruct (clamp_to_safe results b0) as [e0|b];
    [simpl; intros [= <-]; eexists; split; [reflexivity | assumption] |].
  unfold ret, check_range.
  destruct (outside_safe_range b); discriminate.
Qed.

(** Lines 145-147: an exception of the body is logged and answered with the
    default. *)
Lemma fallback_returns_default (e : Exn) :
  fst (body s) = Raise e ->
  is_Exception e = true ->
  fst call = Ret batch_size /\
  In (WARNING, MsgErrorDetected e batch_size) (logs (snd call)).
Proof using model_device accelerator no_benchmark total_read reserved_read
  allocated_read.
  intros Hraise Hcatch.
  destruct autobatch_enters_try as (s0 & _ & _ & ->).
  destruct (estimate_raises e s0 Hraise) as (s1 & Hbody & _).
  unfold try_except. rewrite Hbody. unfold fallback_clause. rewrite Hcatch.
  unfold bind, log, modify, ret. simpl.
  split; [reflexivity |]. apply in_or_app. right. left. reflexivity.
Qed.

(** A run that reaches line 138 with the clamped solution [b]. *)
Lemma range_check_decides (results : list (option ProfileRow)) (p : Q * Q)
    (b0 b : Z) :
  fst (fit_solution host model device imgsz free fraction s) = Ret (results, p, b0) ->
  clamp_to_safe results b0 = inr b ->
  (1 <= b <= 1024 -> fst call = Ret b) /\
  (b < 1 \/ 1024 < b ->
   fst call = Ret batch_size /\
   In (INFO, MsgAnomaly batch_size) (logs (snd call))).
Proof using model_device accelerator no_benchmark total_read reserved_read
  allocated_read.
  intros Hfit Hclamp.
  destruct autobatch_enters_try as (s0 & _ & _ & ->).
  destruct (estimate_run results p b0 b s0 Hfit Hclamp) as (s1 & Hbody & Hlogs).
  unfold try_except. rewrite Hbody. simpl. unfold outside_safe_range in *.
  split; intros Hb.
  - replace ((b <? 1) || (b >? 1024)) with false by lia. reflexivity.
  - replace ((b <? 1) || (b >? 1024)) with true in * by lia.
    split; [reflexivity |]. rewrite Hlogs.
    apply in_or_app. right. left. reflexivity.
Qed.

(** C8.  When the first None of the results is at index 0 and the fit
    answers [b0 >= 1], the clamp reads [batch_sizes] at [max(0 - 1, 0) = 0]
    and autobatch returns 1, the batch size of the failed candidate. *)
Theorem first_candidate_failure_returns_one (results : list (option ProfileRow))
    (p : Q * Q) (b0 : Z) :
  fst (fit_solution host model device imgsz free fraction s) = Ret (results, p, b0) ->
  index_None results = inr 0 ->
  1 <= b0 ->
  list_getitem batch_sizes 0 = inr 1 /\
  clamp_to_safe results b0 = list_getitem batch_sizes (Z.max (0 - 1) 0) /\
  fst call = Ret 1.
Proof using model_device accelerator no_benchmark total_read reserved_read
  allocated_read.
  intros Hfit Hindex Hb0.
  assert (Hclamp : clamp_to_safe results b0 = inr 1).
  { unfold clamp_to_safe.
    rewrite (proj1 (index_None_found _ _ Hindex)), Hindex. simpl.
    replace (b0 >=? 1) with true by lia. reflexivity. }
  split; [reflexivity | split; [exact Hclamp |]].
  apply (proj1 (range_check_decides results p b0 1 Hfit Hclamp)). lia.
Qed.

(** C2, as amended.  When the first None of the results is at an index
    [i >= 1] and the fit answers a [b0] that is at least the batch size at
    index [i], autobatch returns the batch size at index [i - 1], which is
    strictly less than the one at index [i]. *)
Theorem failure_clamps_below (results : list (option ProfileRow)) (p : Q * Q)
    (b0 i failed : Z) :
  fst (fit_solution host model device imgsz free fraction s) = Ret (results, p, b0) ->
  index_None results = inr i ->
  list_getitem batch_sizes i = inr failed ->
  failed <= b0 ->
  1 <= i ->
  exists v, fst call = Ret v /\
            list_getitem batch_sizes (i - 1) = inr v /\
            v < failed.
Proof using model_device accelerator no_benchmark total_read reserved_read
  allocated_read.
  intros Hfit Hindex Hfailed Hb0 Hi.
  assert (Hclamp : clamp_to_safe results b0 = list_getitem batch_sizes (i - 1)).
  { unfold clamp_to_safe.
    rewrite (proj1 (index_None_found _ _ Hindex)), Hindex, Hfailed.
    replace (b0 >=? failed) with true by lia.
    replace (Z.max (i - 1) 0) with (i - 1) by lia. reflexivity. }
  destruct (batch_sizes_index i failed ltac:(lia) Hfailed)
    as [[-> ->]|[[-> ->]|[[-> ->]|[[-> ->]|[-> ->]]]]]; [lia | | | |];
    eexists; (split; [| split; [reflexivity | lia]]);
    apply (proj1 (range_check_decides results p b0 _ Hfit Hclamp)); lia.
Qed.

(** On an accelerator with readable counters and catchable library errors,
    autobatch returns a value in the safe range or its default. *)
Lemma accelerator_range_or_default :
  (forall sh, catchable (torch_empty host sh)) ->
  (forall img, catchable (profile_result host img model 3 device)) ->
  (forall xs ys, catchable (np_polyfit host xs ys)) ->
  exists v, fst call = Ret v /\ (1 <= v <= 1024 \/ v = batch_size).
Proof using model_device accelerator no_benchmark total_read reserved_read
  allocated_read.
  intros Hempty Hprofile Hpolyfit.
  destruct (fst (fit_solution host model device imgsz free fraction s))
    as [[[results p] b0]|e] eqn:Hfit.
  - destruct (clamp_to_safe results b0) as [e|b] eqn:Hclamp.
    + exists batch_size. split; [| now right].
      apply (fallback_returns_default e).
      * unfold estimate, bind.
        destruct (fit_solution host model device imgsz free fraction s)
          as [o s1]. simpl in Hfit. subst o.
        unfold lift. rewrite Hclamp. reflexivity.
      * exact (clamp_to_safe_catchable _ _ _ Hclamp).
    + destruct (range_check_decides results p b0 b Hfit Hclamp) as [Hin Hout].
      destruct (Z_lt_le_dec b 1) as [Hlow|Hlow];
        [exists batch_size; split; [apply Hout; lia | now right] |].
      destruct (Z_lt_le_dec 1024 b) as [Hhigh|Hhigh];
        [exists batch_size; split; [apply Hout; lia | now right] |].
      exists b. split; [apply Hin; lia | left; lia].
  - exists batch_size. split; [| now right].
    apply (fallback_returns_default e).
    + unfold estimate, bind.
      destruct (fit_solution host model device imgsz free fraction s)
        as [o s1]. simpl in Hfit. subst o. reflexivity.
    + exact (fit_solution_catchable _ _ _ Hempty Hprofile Hpolyfit Hfit).
Qed.

End Estimator.

(** ** autobatch as a whole *)

Lemma device_branch_returns_default (host : Host) (model : Model)
    (device : Device) (rest : list Device) (imgsz : Z) (fraction : Q)
    (batch_size : Z) (s : State) :
  param_devices model = device :: rest ->
  cpu_class device = true ->
  fst (autobatch host model imgsz fraction batch_size s) = Ret batch_size.
Proof.
  intros Hparams Hcpu. unfold_estimator. simpl.
  rewrite Hparams. simpl. rewrite Hcpu. reflexivity.
Qed.

Lemma benchmark_branch_returns_default (host : Host) (model : Model)
    (device : Device) (rest : list Device) (imgsz : Z) (fraction : Q)
    (batch_size : Z) (s : State) :
  param_devices model = device :: rest ->
  cpu_class device = false ->
  cudnn_benchmark host = true ->
  fst (autobatch host model imgsz fraction batch_size s) = Ret batch_size /\
  In (INFO, MsgRequiresNoBenchmark batch_size)
     (logs (snd (autobatch host model imgsz fraction batch_size s))).
Proof.
  intros Hparams Hcpu Hbench. unfold_estimator. simpl.
  rewrite Hparams. simpl. rewrite Hcpu, Hbench. simpl.
  split; [reflexivity |]. apply in_or_app. right. left. reflexivity.
Qed.

(** C3, as amended.  With a model that has parameters, readable memory
    counters and library calls that raise nothing but Exceptions, autobatch
    returns an integer that is in [1, 1024] or is its [batch_size] argument;
    and when the run reaches line 138 with a solution outside [1, 1024], it
    returns [batch_size] and logs the anomaly. *)
Theorem autobatch_range_or_default (host : Host) (model : Model)
    (device : Device) (rest : list Device) (imgsz : Z) (fraction : Q)
    (batch_size : Z) (s : State) (total reserved allocated : Z) :
  param_devices model = device :: rest ->
  total_memory host device = inr total ->
  memory_reserved host device = inr reserved ->
  memory_allocated host device = inr allocated ->
  (forall sh, catchable (torch_empty host sh)) ->
  (forall img, catchable (profile_result host img model 3 device)) ->
  (forall xs ys, catchable (np_polyfit host xs ys)) ->
  let call := autobatch host model imgsz fraction batch_size s in
  (exists v, fst call = Ret v /\ (1 <= v <= 1024 \/ v = batch_size)) /\
  (forall results p b0 b,
     cpu_class device = false ->
     cudnn_benchmark host = false ->
     fst (fit_solution host model device imgsz
            (gib total - (gib reserved + gib allocated)) fraction s)
       = Ret (results, p, b0) ->
     clamp_to_safe results b0 = inr b ->
     b < 1 \/ 1024 < b ->
     fst call = Ret batch_size /\
     In (INFO, MsgAnomaly batch_size) (logs (snd call))).
Proof.
  intros Hparams Htotal Hreserved Hallocated Hempty Hprofile Hpolyfit call.
  subst call. split.
  - destruct (cpu_class device) eqn:Hcpu.
    { exists batch_size. split; [| now right].
      exact (device_branch_returns_default _ _ _ _ _ _ _ _ Hparams Hcpu). }
    destruct (cudnn_benchmark host) eqn:Hbench.
    { exists batch_size. split; [| now right].
      exact (proj1 (benchmark_branch_returns_default _ _ _ _ _ _ _ _
                      Hparams Hcpu Hbench)). }
    exact (accelerator_range_or_default _ _ _ _ _ _ _ _ _ _ _
             Hparams Hcpu Hbench Htotal Hreserved Hallocated
             Hempty Hprofile Hpolyfit).
  - intros results p b0 b Hcpu Hbench Hfit Hclamp Hout.
    exact (proj2 (range_check_decides _ _ _ _ _ _ _ _ _ _ _
                    Hparams Hcpu Hbench Htotal Hreserved Hallocated
                    results p b0 b Hfit Hclamp) Hout).
Qed.

(** C10.  On the device branch, on the cudnn-benchmark branch and when the
    body of the [try] raises an Exception, autobatch returns its [batch_size]
    argument [d] as it is; a result in [1, 1024] there means [d] is. *)
Theorem default_returned_unchecked (host : Host) (model : Model)
    (device : Device) (rest : list Device) (imgsz : Z) (fraction : Q) (d : Z)
    (s : State) :
  param_devices model = device :: rest ->
  cpu_class device = true \/
  (cpu_class device = false /\ cudnn_benchmark host = true) \/
  (cpu_class device = false /\ cudnn_benchmark host = false /\
   exists total reserved allocated e,
     total_memory host device = inr total /\
     memory_reserved host device = inr reserved /\
     memory_allocated host device = inr allocated /\
     fst (estimate host model device imgsz fraction d
            (gib total) (gib reserved) (gib allocated)
            (gib total - (gib reserved + gib allocated)) s) = Raise e /\
     is_Exception e = true) ->
  let call := autobatch host model imgsz fraction d s in
  fst call = Ret d /\
  (forall v, fst call = Ret v -> 1 <= v <= 1024 -> 1 <= d <= 1024).
Proof.
  intros Hparams Hbranch call.
  assert (Hret : fst call = Ret d).
  { subst call.
    destruct Hbranch as [Hcpu|[[Hcpu Hbench]|(Hcpu & Hbench & Hraise)]].
    - exact (device_branch_returns_default _ _ _ _ _ _ _ _ Hparams Hcpu).
    - exact (proj1 (benchmark_branch_returns_default _ _ _ _ _ _ _ _
                      Hparams Hcpu Hbench)).
    - destruct Hraise
        as (total & reserved & allocated & e & Ht & Hr & Ha & Hraise & Hcatch).
      exact (proj1 (fallback_returns_default _ _ _ _ _ _ _ _ _ _ _
                      Hparams Hcpu Hbench Ht Hr Ha e Hraise Hcatch)). }
  split; [exact Hret |].
  intros v Hv. rewrite Hret in Hv. injection Hv as <-. tauto.
Qed.

(** *** The estimator on the sample machine *)

Lemma polyfit_deg1_catchable (xs : list Z) (ys : list Q) :
  catchable (polyfit_deg1 xs ys).
Proof.
  intros e. unfold polyfit_deg1.
  destruct (negb _); [intros [= <-]; reflexivity |].
  destruct xs as [|x0 xs]; [intros [= <-]; reflexivity |].
  destruct (Qeq_bool _ 0); [| discriminate].
  destruct (x0 =? 0); [intros [= <-]; reflexivity | discriminate].
Qed.

Lemma first_candidate_failure_returns_one_witness :
  fst (autobatch (profiling (inr first_fails)) gpu_model 640 (3 # 5) 16 boot)
    = Ret 1.
Proof.
  refine (proj2 (proj2 (first_candidate_failure_returns_one
                          (profiling (inr first_fails)) gpu_model cuda0 [cuda0]
                          640 (3 # 5) 16 boot ten_gib 0 0
                          eq_refl eq_refl eq_refl eq_refl eq_refl eq_refl
                          first_fails (2 # 5, 1 # 10)%Q 14 _ eq_refl _))).
  - vm_compute. reflexivity.
  - lia.
Defined.

(** C2, as stated, fails.  The first candidate fails and the fit answers 14,
    which is at least the batch size 1 at index 0; autobatch returns 1, which
    is not strictly less than 1. *)
Lemma failure_clamps_below_counterexample :
  index_None first_fails = inr 0 /\
  list_getitem batch_sizes 0 = inr 1 /\
  fst (fit_solution (profiling (inr first_fails)) gpu_model cuda0 640
         (gib ten_gib - (gib 0 + gib 0)) (3 # 5) boot)
    = Ret (first_fails, (2 # 5, 1 # 10)%Q, 14) /\
  1 <= 14 /\
  fst (autobatch (profiling (inr first_fails)) gpu_model 640 (3 # 5) 16 boot)
    = Ret 1 /\
  ~ 1 < 1.
Proof.
  repeat split; try (vm_compute; reflexivity); lia.
Qed.

Lemma failure_clamps_below_witness :
  exists v,
    fst (autobatch (profiling (inr fourth_fails)) gpu_model 640 (3 # 5) 16 boot)
      = Ret v /\
    list_getitem batch_sizes (3 - 1) = inr v /\ v < 8.
Proof.
  refine (failure_clamps_below
            (profiling (inr fourth_fails)) gpu_model cuda0 [cuda0]
            640 (3 # 5) 16 boot ten_gib 0 0
            eq_refl eq_refl eq_refl eq_refl eq_refl eq_refl
            fourth_fails (2 # 5, 1 # 10)%Q 14 3 8 _ eq_refl eq_refl _ _).
  - vm_compute. reflexivity.
  - lia.
  - lia.
Defined.

(** C3, as stated, fails.  The fit answers 6000 for the tiny model, outside
    [1, 1024], and autobatch returns the default it was given, 2048. *)
Lemma autobatch_range_counterexample :
  fst (fit_solution (profiling (inr tiny_model)) gpu_model cuda0 640
         (gib ten_gib - (gib 0 + gib 0)) (3 # 5) boot)
    = Ret (tiny_model, (1 # 1000, 0)%Q, 6000) /\
  fst (autobatch (profiling (inr tiny_model)) gpu_model 640 (3 # 5) 2048 boot)
    = Ret 2048 /\
  ~ 1 <= 2048 <= 1024.
Proof.
  repeat split; try (vm_compute; reflexivity). lia.
Qed.

Lemma autobatch_range_or_default_witness :
  exists v,
    fst (autobatch (profiling (inr tiny_model)) gpu_model 640 (3 # 5) 2048 boot)
      = Ret v /\
    (1 <= v <= 1024 \/ v = 2048).
Proof.
  refine (proj1 (autobatch_range_or_default
                   (profiling (inr tiny_model)) gpu_model cuda0 [cuda0]
                   640 (3 # 5) 2048 boot ten_gib 0 0
                   eq_refl eq_refl eq_refl eq_refl _ _ _)).
  - intros sh e. simpl. discriminate.
  - intros img e. simpl. discriminate.
  - intros xs ys. apply polyfit_deg1_catchable.
Defined.

Lemma default_returned_unchecked_witness :
  fst (autobatch (profiling (inl OSError)) gpu_model 640 (3 # 5) 2048 boot)
    = Ret 2048.
Proof.
  refine (proj1 (default_returned_unchecked
                   (profiling (inl OSError)) gpu_model cuda0 [cuda0]
                   640 (3 # 5) 2048 boot eq_refl _)).
  right. right. split; [reflexivity | split; [reflexivity |]].
  exists ten_gib, 0, 0, OSError.
  repeat split; vm_compute; reflexivity.
Defined.

(** *** The end-to-end scenario *)

(** C6.  For the samples (1, 0.5), (2, 0.9), (4, 1.7), (8, 3.3), (16, 6.5),
    10 GiB of free memory and the fraction 0.6, the least-squares line has
    slope 0.4 and intercept 0.1, the solution is 14.75 = 59/4, and autobatch
    returns its integer part 14. *)
Theorem end_to_end_scenario :
  polyfit_deg1 batch_sizes (memories all_succeed) = inr ((2 # 5)%Q, (1 # 10)%Q) /\
  (gib ten_gib - (gib 0 + gib 0) == 10)%Q /\
  ((10 * (3 # 5) - (1 # 10)) / (2 # 5) == 59 # 4)%Q /\
  Qtrunc (59 # 4) = 14 /\
  fst (fit_solution (profiling (inr all_succeed)) gpu_model cuda0 640
         (gib ten_gib - (gib 0 + gib 0)) (3 # 5) boot)
    = Ret (all_succeed, ((2 # 5)%Q, (1 # 10)%Q), 14) /\
  fst (autobatch (profiling (inr all_succeed)) gpu_model 640 (3 # 5) 16 boot)
    = Ret 14.
Proof.
  repeat split; vm_compute; reflexivity.
Qed.

(** *** Rounding in the scenario *)

Lemma Qtrunc_between (q : Q) (n : Z) :
  0 <= n -> (inject_Z n <= q)%Q -> (q < inject_Z (n + 1))%Q -> Qtrunc q = n.
Proof.
  destruct q as [a d]. unfold Qtrunc, Qle, Qlt. simpl. intros Hn Hlow Hhigh.
  symmetry. apply Z.quot_unique with (r := a - Z.pos d * n); lia.
Qed.

(** The fit is computed in floating point.  Whatever slope, intercept and
    budget within a thousandth of 0.4, 0.1 and 6 it produces, the solution
    truncates to 14. *)
Lemma scenario_tolerates_rounding (m c x : Q) :
  (399 # 1000 <= m)%Q -> (m <= 401 # 1000)%Q ->
  (99 # 1000 <= c)%Q -> (c <= 101 # 1000)%Q ->
  (5999 # 1000 <= x)%Q -> (x <= 6001 # 1000)%Q ->
  py_int (np_div (x - c) m) = inr 14.
Proof.
  intros Hm1 Hm2 Hc1 Hc2 Hx1 Hx2.
  assert (Hpos : (0 < m)%Q) by lra.
  unfold np_div.
  destruct (Qeq_bool m 0) eqn:Hzero.
  { apply Qeq_bool_iff in Hzero. lra. }
  simpl. f_equal. apply Qtrunc_between; [lia | |].
  - apply Qle_shift_div_l; [assumption |]. change (inject_Z 14) with 14%Q. lra.
  - apply Qlt_shift_div_r; [assumption |].
    change (inject_Z (14 + 1)) with 15%Q. lra.
Qed.

(** ** More on the wrapper *)

(** X1.  A model without parameters: [next()] raises StopIteration before either
    function has done anything but log its first line. *)
Theorem no_parameters_raises (host : Host) (model : Model) (imgsz : Z)
    (amp : bool) (batch fraction : Q) (batch_size : Z) (s : State) :
  param_devices model = [] ->
  let wrapper := check_train_batch_size host model imgsz amp batch s in
  let estimator := autobatch host model imgsz fraction batch_size s in
  fst wrapper = Raise StopIteration /\
  fs (snd wrapper) = fs s /\
  spawned (snd wrapper) = spawned s /\
  cache_flushes (snd wrapper) = cache_flushes s /\
  fst estimator = Raise StopIteration /\
  profiler_runs (snd estimator) = profiler_runs s.
Proof.
  intros Hparams.
  unfold check_train_batch_size, autobatch, first_param_device, enter_frame,
    bind, log, modify, raise.
  rewrite Hparams. simpl. repeat split; reflexivity.
Qed.

Lemma no_parameters_raises_witness :
  fst (check_train_batch_size (profiling (inr all_succeed))
         {| param_devices := [] |} 640 true (-1) boot) = Raise StopIteration /\
  fst (autobatch (profiling (inr all_succeed))
         {| param_devices := [] |} 640 (3 # 5) 16 boot) = Raise StopIteration.
Proof.
  destruct (no_parameters_raises (profiling (inr all_succeed))
              {| param_devices := [] |} 640 true (-1) (3 # 5) 16 boot eq_refl)
    as (Hwrapper & _ & _ & _ & Hestimator & _).
  exact (conj Hwrapper Hestimator).
Defined.



(** X3.  What check_train_batch_size can hand back.  A value is DEFAULT_CFG.batch,
    None, or the "batch_size" member of a decoded object that has no "error"
    member; an exception is StopIteration (no parameters), the
    UnboundLocalError of the [finally] clause, or one that is not an
    Exception. *)
Theorem wrapper_outcomes (host : Host) (model : Model) (imgsz : Z) (amp : bool)
    (batch : Q) (s : State) :
  match fst (check_train_batch_size host model imgsz amp batch s) with
  | Ret v =>
      v = PInt (DEFAULT_CFG_batch host) \/ v = PNone \/
      exists text d, json_loads host text = Some (PDict d) /\
                     dict_get "batch_size" d = Some v /\
                     dict_get "error" d = None
  | Raise e =>
      e = StopIteration \/ e = UnboundLocalError "tmp_file_path" \/
      is_Exception e = false
  end.
Proof.
  unfold_wrapper. project_state.
  destruct (param_devices model) as [|device rest]; project_state; [now left |].
  destruct (cpu_class device); project_state; [now left |].
  destruct (tempfile_name host) as [e|name]; project_state.
  { destruct e; project_state; right; left; reflexivity. }
  case_wrapper; auto.
  right. right.
  match goal with
  | Hjson : json_loads _ ?t = Some ?o,
    Herror : py_contains _ ?o = inr false,
    Hsize : py_getitem ?o _ = inr _ |- _ =>
      exists t; destruct o as [| | | | | |d]; try discriminate Hsize;
      exists d; unfold py_contains, py_getitem in Herror, Hsize;
      destruct (dict_get "error" d); [discriminate Herror |];
      destruct (dict_get "batch_size" d); [| discriminate Hsize];
      split; [exact Hjson | split; [congruence | reflexivity]]
  end.
Qed.

(** X4.  There is no retry: a call runs subprocess.run at most once, and only
    after the model has been saved to the temporary file; it releases the
    cache at most once, and exactly once after a successful save. *)
Theorem at_most_one_child (host : Host) (model : Model) (imgsz : Z) (amp : bool)
    (batch : Q) (s : State) :
  let call := check_train_batch_size host model imgsz amp batch s in
  let saved :=
    match param_devices model, tempfile_name host with
    | device :: _, inr name =>
        negb (cpu_class device) &&
        match torch_save_raises host model name with
        | None => true
        | Some _ => false
        end
    | _, _ => false
    end in
  spawned (snd call) = (spawned s + (if saved then 1 else 0))%nat /\
  cache_flushes (snd call) = (cache_flushes s + (if saved then 1 else 0))%nat.
Proof.
  unfold_wrapper. project_state.
  destruct (param_devices model) as [|device rest]; project_state;
    [simpl; split; lia |].
  destruct (tempfile_name host) as [e|name]; project_state.
  { destruct (cpu_class device); project_state; [simpl; split; lia |].
    destruct e; project_state; simpl; split; lia. }
  destruct (cpu_class device); project_state; [simpl; split; lia |].
  case_wrapper; simpl; split; lia.
Qed.

(** X7.  A call that has created the temporary file and comes back with a
    value, whatever the value, has saved the model, run the child once,
    removed the file and released the cache once. *)
Theorem returned_value_cleaned_up (host : Host) (model : Model)
    (device : Device) (rest : list Device) (imgsz : Z) (amp : bool) (batch : Q)
    (s : State) (name : string) (v : pyval) :
  param_devices model = device :: rest ->
  cpu_class device = false ->
  tempfile_name host = inr name ->
  let call := check_train_batch_size host model imgsz amp batch s in
  fst call = Ret v ->
  torch_save_raises host model name = None /\
  ~ elem_of name (fs (snd call)) /\
  spawned (snd call) = S (spawned s) /\
  cache_flushes (snd call) = S (cache_flushes s).
Proof.
  intros Hparams Hdev Hfile call.
  subst call. unfold_wrapper. project_state.
  rewrite Hparams, Hdev. project_state.
  rewrite Hfile. project_state.
  case_wrapper; intros Hret; try discriminate Hret;
    (split; [reflexivity |]); (split; [apply unlinked_absent |]);
    split; reflexivity.
Qed.

Lemma returned_value_cleaned_up_witness :
  ~ elem_of tmp_name
      (fs (snd (check_train_batch_size
                  (machine None (exited 0 negative_text) sample_decoder
                           (inl OSError))
                  gpu_model 640 true (-1) boot))).
Proof.
  exact (proj1 (proj2 (returned_value_cleaned_up
           (machine None (exited 0 negative_text) sample_decoder (inl OSError))
           gpu_model cuda0 [cuda0] 640 true (-1) boot tmp_name (PInt (-3))
           eq_refl eq_refl eq_refl eq_refl))).
Defined.

Section WrapperPaths.

Variables (host : Host) (model : Model) (device : Device) (rest : list Device).
Variables (imgsz : Z) (amp : bool) (batch : Q) (s : State).
Variables (name : string).

Hypothesis model_device : param_devices model = device :: rest.
Hypothesis accelerator : cpu_class device = false.
Hypothesis file_created : tempfile_name host = inr name.
Hypothesis model_saved : torch_save_raises host model name = None.

Local Abbreviation code :=
  {| code_path := name; code_device := device; code_imgsz := imgsz;
     code_fraction := memory_fraction batch; code_amp := amp |}.
Local Abbreviation call := (check_train_batch_size host model imgsz amp batch s).

(** X5.  Output that decodes, but not to an object with a "batch_size" member and
    no "error" member (a number, a string, a list, null, an object without
    "batch_size", an object with "error"), gives DEFAULT_CFG.batch. *)
Theorem unusable_output_gives_default (result : CompletedProcess) (o : pyval) :
  child_process host code = inr result ->
  returncode result = 0 ->
  json_loads host (stdout result) = Some o ->
  (forall d v, o = PDict d -> dict_get "batch_size" d = Some v ->
               dict_get "error" d <> None) ->
  fst call = Ret (PInt (DEFAULT_CFG_batch host)) /\
  In (WARNING, MsgUsingDefault (DEFAULT_CFG_batch host)) (logs (snd call)) /\
  ~ elem_of name (fs (snd call)).
Proof using model_device accelerator file_created model_saved.
  intros Hchild Hstatus Hjson Hunusable. apply Z.eqb_eq in Hstatus.
  unfold_wrapper. project_state.
  rewrite model_device, accelerator. project_state.
  rewrite file_created. project_state.
  rewrite model_saved. project_state.
  rewrite Hchild. project_state.
  rewrite Hstatus. project_state.
  rewrite Hjson. project_state.
  assert (Hlog : forall (l : list (Level * Msg)) (m : Msg) (x : Level * Msg),
             In x ((l ++ [(WARNING, m)]) ++ [x])).
  { intros l m x. apply in_or_app. right. left. reflexivity. }
  destruct o as [| | | | text | l | d]; simpl; project_state;
    try (split; [reflexivity | split; [apply Hlog | apply unlinked_absent]]).
  - destruct (substringb "error" text); project_state;
      (split; [reflexivity | split; [apply Hlog | apply unlinked_absent]]).
  - destruct (existsb (is_str "error") l); project_state;
      (split; [reflexivity | split; [apply Hlog | apply unlinked_absent]]).
  - destruct (dict_get "error" d) as [msg|] eqn:Herror; project_state;
      [split; [reflexivity | split; [apply Hlog | apply unlinked_absent]] |].
    destruct (dict_get "batch_size" d) as [v|] eqn:Hsize; project_state;
      [| split; [reflexivity | split; [apply Hlog | apply unlinked_absent]]].
    exfalso. exact (Hunusable d v eq_refl Hsize Herror).
Qed.

(** X6.  An exception of subprocess.run that [except Exception] does not catch
    (a KeyboardInterrupt while the child runs) reaches the caller, and the
    [finally] clause has still removed the file and released the cache. *)
Theorem uncaught_exception_still_cleans_up (e : Exn) :
  child_process host code = inl e ->
  is_Exception e = false ->
  fst call = Raise e /\
  ~ elem_of name (fs (snd call)) /\
  cache_flushes (snd call) = S (cache_flushes s).
Proof using model_device accelerator file_created model_saved.
  intros Hchild Hbase.
  unfold_wrapper. project_state.
  rewrite model_device, accelerator. project_state.
  rewrite file_created. project_state.
  rewrite model_saved. project_state.
  rewrite Hchild. project_state.
  destruct e; try discriminate Hbase. project_state.
  split; [reflexivity | split; [apply unlinked_absent | reflexivity]].
Qed.

End WrapperPaths.

Lemma unusable_output_gives_default_witness :
  fst (check_train_batch_size
         (machine None (exited 0 traceback_text) (fun _ => Some (PInt 32))
                  (inl OSError))
         gpu_model 640 true (-1) boot) = Ret (PInt 16).
Proof.
  refine (proj1 (unusable_output_gives_default
                   (machine None (exited 0 traceback_text)
                            (fun _ => Some (PInt 32)) (inl OSError))
                   gpu_model cuda0 [cuda0] 640 true (-1) boot tmp_name
                   eq_refl eq_refl eq_refl eq_refl
                   {| returncode := 0; stdout := traceback_text;
                      stderr := "stderr of the child" |}
                   (PInt 32) eq_refl eq_refl eq_refl _)).
  intros d v Hdict. discriminate Hdict.
Defined.

Lemma uncaught_exception_still_cleans_up_witness :
  fst (check_train_batch_size
         (machine None (inl KeyboardInterrupt) sample_decoder (inl OSError))
         gpu_model 640 true (-1) boot) = Raise KeyboardInterrupt.
Proof.
  exact (proj1 (uncaught_exception_still_cleans_up
                  (machine None (inl KeyboardInterrupt) sample_decoder
                           (inl OSError))
                  gpu_model cuda0 [cuda0] 640 true (-1) boot tmp_name
                  eq_refl eq_refl eq_refl eq_refl
                  KeyboardInterrupt eq_refl eq_refl)).
Defined.

(** ** More on the estimator *)

Lemma memories_all_None (results : list (option ProfileRow)) :
  Forall (fun x => x = None) results -> memories results = [].
Proof.
  induction 1 as [|x results Hx _ IH]; [reflexivity |].
  subst x. exact IH.
Qed.

Section EstimatorPaths.

Variables (host : Host) (model : Model) (device : Device) (rest : list Device).
Variables (imgsz : Z) (fraction : Q) (batch_size : Z) (s : State).
Variables (total reserved allocated : Z).

Hypothesis model_device : param_devices model = device :: rest.
Hypothesis accelerator : cpu_class device = false.
Hypothesis no_benchmark : cudnn_benchmark host = false.
Hypothesis total_read : total_memory host device = inr total.
Hypothesis reserved_read : memory_reserved host device = inr reserved.
Hypothesis allocated_read : memory_allocated host device = inr allocated.

Local Abbreviation free := (gib total - (gib reserved + gib allocated))%Q.
Local Abbreviation body :=
  (estimate host model device imgsz fraction batch_size
            (gib total) (gib reserved) (gib allocated) free).
Local Abbreviation call := (autobatch host model imgsz fraction batch_size s).
Local Abbreviation images :=
  (comprehension (fun b => lift (torch_empty host [b; 3; imgsz; imgsz]))
                 batch_sizes).

(** The fit, step by step. *)
Lemma fit_solution_steps (f : Q) (img : list Tensor)
    (results : list (option ProfileRow)) :
  fst (images s) = Ret img ->
  profile_result host img model 3 device = inr results ->
  fst (fit_solution host model device imgsz f fraction s) =
    match np_polyfit host (take (length (memories results)) batch_sizes)
                     (memories results) with
    | inl e => Raise e
    | inr p =>
        match py_int (np_div (f * fraction - snd p) (fst p)) with
        | inl e => Raise e
        | inr b => Ret (results, p, b)
        end
    end.
Proof.
  intros Himg Hprofile. unfold fit_solution, bind at 1.
  destruct (images s) as [o s1]. simpl in Himg. subst o.
  unfold bind, profile, modify, lift. rewrite Hprofile. simpl.
  destruct (np_polyfit host _ (memories results)) as [e|p]; [reflexivity |].
  simpl. destruct (py_int _) as [e|b]; reflexivity.
Qed.

Lemma estimate_fit_raises (e : Exn) :
  fst (fit_solution host model device imgsz free fraction s) = Raise e ->
  fst (body s) = Raise e.
Proof.
  unfold estimate, bind at 1.
  destruct (fit_solution host model device imgsz free fraction s) as [o s1].
  simpl. intros ->. reflexivity.
Qed.

(** X8.  When every candidate fails, np.polyfit is called on empty lists; numpy
    raises a TypeError there, and autobatch answers any Exception with the
    default. *)
Theorem all_candidates_fail (img : list Tensor)
    (results : list (option ProfileRow)) (e : Exn) :
  fst (images s) = Ret img ->
  profile_result host img model 3 device = inr results ->
  Forall (fun x => x = None) results ->
  np_polyfit host [] [] = inl e ->
  is_Exception e = true ->
  fst call = Ret batch_size /\
  In (WARNING, MsgErrorDetected e batch_size) (logs (snd call)).
Proof using model_device accelerator no_benchmark total_read reserved_read
  allocated_read.
  intros Himg Hprofile Hnone Hfit Hcatch.
  apply (fallback_returns_default _ _ _ _ _ _ _ _ _ _ _
           model_device accelerator no_benchmark total_read reserved_read
           allocated_read e); [| exact Hcatch].
  apply estimate_fit_raises.
  rewrite (fit_solution_steps free img results Himg Hprofile).
  rewrite (memories_all_None results Hnone). simpl. rewrite Hfit. reflexivity.
Qed.

(** X9.  A fitted line of slope zero: the division gives inf or nan, [int()]
    raises OverflowError or ValueError, and autobatch returns the default. *)
Theorem zero_slope_gives_default (img : list Tensor)
    (results : list (option ProfileRow)) (p : Q * Q) :
  fst (images s) = Ret img ->
  profile_result host img model 3 device = inr results ->
  np_polyfit host (take (length (memories results)) batch_sizes)
             (memories results) = inr p ->
  (fst p == 0)%Q ->
  fst call = Ret batch_size /\
  exists e, (e = OverflowError \/ e = ValueError) /\
            In (WARNING, MsgErrorDetected e batch_size) (logs (snd call)).
Proof using model_device accelerator no_benchmark total_read reserved_read
  allocated_read.
  intros Himg Hprofile Hfit Hzero.
  pose proof (fit_solution_steps free img results Himg Hprofile) as Hsteps.
  rewrite Hfit in Hsteps. unfold np_div in Hsteps.
  apply Qeq_bool_iff in Hzero. rewrite Hzero in Hsteps.
  destruct (Qeq_bool (free * fraction - snd p) 0); simpl in Hsteps.
  - destruct (fallback_returns_default _ _ _ _ _ _ _ _ _ _ _
                model_device accelerator no_benchmark total_read reserved_read
                allocated_read ValueError
                (estimate_fit_raises _ Hsteps) eq_refl) as [Hret Hlog].
    split; [exact Hret |]. exists ValueError. split; [now right | exact Hlog].
  - destruct (fallback_returns_default _ _ _ _ _ _ _ _ _ _ _
                model_device accelerator no_benchmark total_read reserved_read
                allocated_read OverflowError
                (estimate_fit_raises _ Hsteps) eq_refl) as [Hret Hlog].
    split; [exact Hret |]. exists OverflowError. split; [now left | exact Hlog].
Qed.

(** X11.  With a failed candidate, whatever the fit answers, autobatch returns its
    default or a batch size between 1 and that of the first failed
    candidate. *)
Theorem failure_bounds_result (results : list (option ProfileRow)) (p : Q * Q)
    (b0 i failed : Z) :
  fst (fit_solution host model device imgsz free fraction s) = Ret (results, p, b0) ->
  index_None results = inr i ->
  list_getitem batch_sizes i = inr failed ->
  exists v, fst call = Ret v /\ (v = batch_size \/ 1 <= v <= failed).
Proof using model_device accelerator no_benchmark total_read reserved_read
  allocated_read.
  intros Hfit Hindex Hfailed.
  destruct (index_None_found _ _ Hindex) as [Hnone Hi].
  pose proof (range_check_decides host model device rest imgsz fraction
                batch_size s total reserved allocated
                model_device accelerator no_benchmark total_read
                reserved_read allocated_read results p b0) as Hdecide.
  assert (Hclamp : clamp_to_safe results b0 =
                   if b0 >=? failed then list_getitem batch_sizes (Z.max (i - 1) 0)
                   else inr b0).
  { unfold clamp_to_safe. rewrite Hnone, Hindex, Hfailed. reflexivity. }
  destruct (b0 >=? failed) eqn:Hcmp.
  - destruct (batch_sizes_index i failed Hi Hfailed)
      as [[-> ->]|[[-> ->]|[[-> ->]|[[-> ->]|[-> ->]]]]];
      simpl in Hclamp;
      eexists; (split; [apply (proj1 (Hdecide _ Hfit Hclamp)); lia | right; lia]).
  - destruct (Z_lt_le_dec b0 1) as [Hlow|Hlow].
    + exists batch_size. split; [| now left].
      apply (proj2 (Hdecide _ Hfit Hclamp)). lia.
    + assert (failed <= 16)
        by (destruct (batch_sizes_index i failed Hi Hfailed)
              as [[_ ->]|[[_ ->]|[[_ ->]|[[_ ->]|[_ ->]]]]]; lia).
      exists b0. split; [| right; lia].
      apply (proj1 (Hdecide _ Hfit Hclamp)). lia.
Qed.

End EstimatorPaths.

(** *** The estimator's paths on the sample machine *)

Lemma all_candidates_fail_witness :
  fst (autobatch (profiling (inr [None; None; None; None; None]))
                 gpu_model 640 (3 # 5) 16 boot) = Ret 16.
Proof.
  refine (proj1 (all_candidates_fail
                   (profiling (inr [None; None; None; None; None]))
                   gpu_model cuda0 [cuda0] 640 (3 # 5) 16 boot ten_gib 0 0
                   eq_refl eq_refl eq_refl eq_refl eq_refl eq_refl
                   _ [None; None; None; None; None] TypeError
                   eq_refl eq_refl _ eq_refl eq_refl)).
  repeat constructor.
Defined.

Lemma zero_slope_gives_default_witness :
  fst (autobatch (profiling (inr [row 1; row 1; row 1; row 1; row 1]))
                 gpu_model 640 (3 # 5) 16 boot) = Ret 16.
Proof.
  refine (proj1 (zero_slope_gives_default
                   (profiling (inr [row 1; row 1; row 1; row 1; row 1]))
                   gpu_model cuda0 [cuda0] 640 (3 # 5) 16 boot ten_gib 0 0
                   eq_refl eq_refl eq_refl eq_refl eq_refl eq_refl
                   _ [row 1; row 1; row 1; row 1; row 1] (0, 1)%Q
                   eq_refl eq_refl _ _)).
  - vm_compute. reflexivity.
  - reflexivity.
Defined.

Lemma failure_bounds_result_witness :
  exists v,
    fst (autobatch (profiling (inr fourth_fails)) gpu_model 640 (3 # 5) 16 boot)
      = Ret v /\
    (v = 16 \/ 1 <= v <= 8).
Proof.
  refine (failure_bounds_result
            (profiling (inr fourth_fails)) gpu_model cuda0 [cuda0]
            640 (3 # 5) 16 boot ten_gib 0 0
            eq_refl eq_refl eq_refl eq_refl eq_refl eq_refl
            fourth_fails (2 # 5, 1 # 10)%Q 14 3 8 _ eq_refl eq_refl).
  vm_compute. reflexivity.
Defined.

(** ** setup.py: reading the version *)

Lemma until_quote_run (q : ascii) (v rest : string) :
  is_quote q = true ->
  (forall c, In c (chars v) -> is_quote c = false) ->
  until_quote (v ++ String q rest) = Some v.
Proof.
  intros Hq. induction v as [|c v IH]; simpl; intros Hv.
  - now rewrite Hq.
  - rewrite (Hv c (or_introl eq_refl)).
    rewrite IH; [reflexivity |]. intros c' Hc'. apply Hv. now right.
Qed.

Lemma until_quote_no_quote (s v : string) :
  until_quote s = Some v -> forall c, In c (chars v) -> is_quote c = false.
Proof.
  revert v. induction s as [|a s IH]; simpl; intros v; [discriminate |].
  destruct (is_quote a) eqn:Ha.
  - intros [= <-] c [].
  - destruct (until_quote s) as [run|]; [| discriminate].
    intros [= <-] c [<-|Hc]; [exact Ha | exact (IH run eq_refl c Hc)].
Qed.

Lemma strip_prefix_chars (p s r : string) :
  strip_prefix p s = Some r -> forall c, In c (chars r) -> In c (chars s).
Proof.
  revert s. induction p as [|a p IH]; intros [|b s]; simpl; try discriminate.
  - intros [= <-]. auto.
  - intros [= <-]. auto.
  - destruct (Ascii.eqb a b); [| discriminate].
    intros H c Hc. right. exact (IH s H c Hc).
Qed.

Lemma search_version_rest_of_line (l text : string) :
  ~ In newline (chars l) ->
  search_version false (l ++ String newline text) = search_version true text.
Proof.
  induction l as [|c l IH]; simpl; intros Hl.
  - reflexivity.
  - destruct (Ascii.eqb c newline) eqn:Hc.
    + apply Ascii.eqb_eq in Hc. tauto.
    + apply IH. tauto.
Qed.

Lemma search_version_cons (line_start : bool) (c : ascii) (rest : string) :
  search_version line_start (String c rest) =
    match (if line_start then match_version (String c rest) else None) with
    | Some v => Some v
    | None => search_version (Ascii.eqb c newline) rest
    end.
Proof. reflexivity. Qed.

Lemma match_version_first (c : ascii) (s : string) :
  c <> "_"%char -> match_version (String c s) = None.
Proof.
  intros Hc. unfold match_version.
  change (strip_prefix "__version__ = " (String c s))
    with (if Ascii.eqb "_" c then strip_prefix "_version__ = " s else None).
  destruct (Ascii.eqb "_" c) eqn:E; [| reflexivity].
  apply Ascii.eqb_eq in E. congruence.
Qed.

Lemma search_version_other_line (l text : string) :
  other_line l ->
  search_version true (l ++ String newline text) = search_version true text.
Proof.
  intros [Hl Hfirst]. destruct l as [|c l].
  - reflexivity.
  - change (String c l ++ String newline text)%string
      with (String c (l ++ String newline text)).
    rewrite search_version_cons.
    rewrite match_version_first
      by (intros ->; apply Hfirst; reflexivity).
    destruct (Ascii.eqb c newline) eqn:Hc.
    + apply Ascii.eqb_eq in Hc. subst c. exfalso. apply Hl. now left.
    + apply search_version_rest_of_line. intros Hin. apply Hl. now right.
Qed.

Lemma join_lines_cons (l : string) (lines : list string) (text : string) :
  (join_lines (l :: lines) ++ text)%string =
  (l ++ String newline (join_lines lines ++ text))%string.
Proof.
  change (join_lines (l :: lines))
    with (l ++ String newline (join_lines lines))%string.
  induction l as [|c l IH]; [reflexivity |].
  change (String c ((l ++ String newline (join_lines lines)) ++ text)
          = String c (l ++ String newline (join_lines lines ++ text)))%string.
  now rewrite IH.
Qed.

(** X13.  Round trip.  After any lines that do not start with an underscore, the
    line [__version__ = 'v'] (either quote on either side, [v] without
    quotes, anything after it) makes get_version return [v]. *)
Theorem get_version_reads_assignment (lines : list string) (q1 q2 : ascii)
    (v rest : string) :
  Forall other_line lines ->
  is_quote q1 = true ->
  is_quote q2 = true ->
  (forall c, In c (chars v) -> is_quote c = false) ->
  get_version
    (inr (join_lines lines ++ "__version__ = " ++ String q1 (v ++ String q2 rest))%string)
  = inr v.
Proof.
  intros Hlines Hq1 Hq2 Hv. unfold get_version.
  assert (Hsearch : search_version true
            (join_lines lines ++ "__version__ = " ++ String q1 (v ++ String q2 rest))
          = Some v).
  { induction Hlines as [|l lines Hl _ IH].
    - simpl. unfold match_version. simpl. rewrite Hq1.
      now rewrite (until_quote_run q2 v rest Hq2 Hv).
    - rewrite join_lines_cons.
      rewrite (search_version_other_line l _ Hl). exact IH. }
  now rewrite Hsearch.
Qed.

Lemma search_version_no_quote (text v : string) (line_start : bool) :
  search_version line_start text = Some v ->
  forall c, In c (chars v) -> is_quote c = false.
Proof.
  revert line_start. induction text as [|a text IH]; intros line_start.
  - simpl. destruct line_start; [| discriminate].
    unfold match_version. simpl. discriminate.
  - rewrite search_version_cons.
    destruct (if line_start then match_version (String a text) else None)
      as [found|] eqn:Hhere.
    + intros [= <-]. destruct line_start; [| discriminate].
      unfold match_version in Hhere.
      destruct (strip_prefix _ (String a text)) as [[|q r]|]; try discriminate.
      destruct (is_quote q); [| discriminate].
      exact (until_quote_no_quote r found Hhere).
    + apply IH.
Qed.

(** X14.  What get_version returns never holds a quote character. *)
Theorem get_version_has_no_quote (text v : string) :
  get_version (inr text) = inr v ->
  forall c, In c (chars v) -> is_quote c = false.
Proof.
  unfold get_version.
  destruct (search_version true text) as [found|] eqn:Hsearch; [| discriminate].
  intros [= <-]. exact (search_version_no_quote text found true Hsearch).
Qed.

Lemma search_version_needs_quote (text : string) (line_start : bool) :
  (forall c, In c (chars text) -> is_quote c = false) ->
  search_version line_start text = None.
Proof.
  revert line_start. induction text as [|a text IH]; intros line_start Htext.
  - simpl. destruct line_start; reflexivity.
  - assert (Hhere : (if line_start then match_version (String a text) else None)
                    = None).
    { destruct line_start; [| reflexivity]. unfold match_version.
      destruct (strip_prefix _ (String a text)) as [[|q r]|] eqn:Hstrip;
        try reflexivity.
      rewrite (Htext q); [reflexivity |].
      apply (strip_prefix_chars _ _ _ Hstrip). now left. }
    rewrite search_version_cons, Hhere. apply IH. intros c Hc. apply Htext. now right.
Qed.

(** X15.  A file without any quote character has no version assignment:
    re.search returns None and subscripting it raises a TypeError. *)
Theorem get_version_without_assignment (text : string) :
  (forall c, In c (chars text) -> is_quote c = false) ->
  get_version (inr text) = inl TypeError.
Proof.
  intros Htext. unfold get_version.
  now rewrite (search_version_needs_quote text true Htext).
Qed.

Lemma not_in_chars (c : ascii) (s : string) :
  existsb (Ascii.eqb c) (chars s) = false -> ~ In c (chars s).
Proof.
  intros Hnone Hin.
  assert (existsb (Ascii.eqb c) (chars s) = true); [| congruence].
  apply existsb_exists. exists c. split; [exact Hin | apply Ascii.eqb_refl].
Qed.

Lemma no_quote_in_chars (s : string) :
  existsb is_quote (chars s) = false ->
  forall c, In c (chars s) -> is_quote c = false.
Proof.
  intros Hnone c Hin. destruct (is_quote c) eqn:Hc; [| reflexivity].
  assert (existsb is_quote (chars s) = true); [| congruence].
  apply existsb_exists. exists c. split; assumption.
Qed.

Lemma get_version_reads_assignment_witness :
  get_version
    (inr (join_lines ["# Ultralytics YOLO, AGPL-3.0 license"; EmptyString]
          ++ "__version__ = "
          ++ String "'" ("8.0.120" ++ String "'"
               (String newline "from ultralytics.models import YOLO")))%string)
  = inr "8.0.120".
Proof.
  apply (get_version_reads_assignment
           ["# Ultralytics YOLO, AGPL-3.0 license"; EmptyString]
           "'"%char "'"%char "8.0.120"
           (String newline "from ultralytics.models import YOLO")).
  - repeat constructor;
      try (apply not_in_chars; reflexivity); discriminate.
  - reflexivity.
  - reflexivity.
  - apply no_quote_in_chars. reflexivity.
Defined.

Lemma get_version_has_no_quote_witness :
  get_version
    (inr ("__version__ = " ++ String "'" ("8.0.120" ++ String "'" EmptyString))%string)
  = inr "8.0.120" /\
  In "."%char (chars "8.0.120") /\
  is_quote "."%char = false.
Proof.
  split; [reflexivity | split; [right; left; reflexivity |]].
  exact (get_version_has_no_quote
           ("__version__ = " ++ String "'" ("8.0.120" ++ String "'" EmptyString))
           "8.0.120" eq_refl "."%char (or_intror (or_introl eq_refl))).
Defined.

Lemma get_version_without_assignment_witness :
  get_version (inr "# Ultralytics YOLO, AGPL-3.0 license") = inl TypeError.
Proof.
  apply get_version_without_assignment.
  apply no_quote_in_chars. reflexivity.
Defined.


(** ** yolodetection.py: the colour palette *)

Lemma hex_digit_range (c : ascii) (d : Z) :
  hex_digit c = Some d -> 0 <= d <= 15.
Proof.
  unfold hex_digit.
  repeat match goal with
         | |- context [if ?b then _ else _] => destruct b eqn:?
         end; intros [= <-]; lia.
Qed.

Section PaletteFacts.

Variable int16 : string -> Exn + Z.

Hypothesis int16_hex : forall s v, hex_pair s = Some v -> int16 s = inr v.

Lemma hex2rgb_agrees (h : string) (rgb : Z * Z * Z) :
  hex2rgb two_digit_int16 h = inr rgb -> hex2rgb int16 h = inr rgb.
Proof using int16_hex.
  unfold hex2rgb, two_digit_int16.
  destruct (hex_pair (substring 1 2 h)) as [r|] eqn:Hr; [| discriminate].
  destruct (hex_pair (substring 3 2 h)) as [g|] eqn:Hg; [| discriminate].
  destruct (hex_pair (substring 5 2 h)) as [b|] eqn:Hb; [| discriminate].
  rewrite (int16_hex _ _ Hr), (int16_hex _ _ Hg), (int16_hex _ _ Hb).
  auto.
Qed.

Lemma hex2rgb_each_agrees (l : list string) (rgbs : list (Z * Z * Z)) :
  hex2rgb_each two_digit_int16 l = inr rgbs ->
  hex2rgb_each int16 l = inr rgbs.
Proof using int16_hex.
  revert rgbs. induction l as [|c l IH]; simpl; intros rgbs; [auto |].
  destruct (hex2rgb two_digit_int16 (String "#" c)) as [e|rgb] eqn:Hrgb;
    [discriminate |].
  rewrite (hex2rgb_agrees _ _ Hrgb).
  destruct (hex2rgb_each two_digit_int16 l) as [e|rest]; [discriminate |].
  rewrite (IH rest eq_refl). auto.
Qed.

(** X16.  hex2rgb reads the characters 1 to 6 as three pairs of hexadecimal
    digits, each giving a value from 0 to 255; it looks at neither the first
    character nor anything after the seventh. *)
Theorem hex2rgb_reads_three_pairs (c0 c1 c2 c3 c4 c5 c6 : ascii)
    (d1 d2 d3 d4 d5 d6 : Z) (rest : string) :
  hex_digit c1 = Some d1 -> hex_digit c2 = Some d2 ->
  hex_digit c3 = Some d3 -> hex_digit c4 = Some d4 ->
  hex_digit c5 = Some d5 -> hex_digit c6 = Some d6 ->
  hex2rgb int16
    (String c0 (String c1 (String c2 (String c3 (String c4 (String c5
       (String c6 rest)))))))
  = inr (16 * d1 + d2, 16 * d3 + d4, 16 * d5 + d6) /\
  byte (16 * d1 + d2) /\ byte (16 * d3 + d4) /\ byte (16 * d5 + d6).
Proof using int16_hex.
  intros H1 H2 H3 H4 H5 H6. split.
  - unfold hex2rgb.
    change (substring 1 2 _) with (String c1 (String c2 EmptyString)).
    change (substring 3 2 _) with (String c3 (String c4 EmptyString)).
    replace (substring 5 2 _) with (String c5 (String c6 EmptyString))
      by (destruct rest; reflexivity).
    rewrite (int16_hex (String c1 (String c2 EmptyString)) (16 * d1 + d2))
      by (unfold hex_pair; now rewrite H1, H2).
    rewrite (int16_hex (String c3 (String c4 EmptyString)) (16 * d3 + d4))
      by (unfold hex_pair; now rewrite H3, H4).
    rewrite (int16_hex (String c5 (String c6 EmptyString)) (16 * d5 + d6))
      by (unfold hex_pair; now rewrite H5, H6).
    reflexivity.
  - apply hex_digit_range in H1, H2, H3, H4, H5, H6. unfold byte. lia.
Qed.

Lemma colors_built :
  exists colors, Colors_init int16 = inr colors /\ n colors = 20 /\
                 Colors_init two_digit_int16 = inr colors.
Proof using int16_hex.
  destruct (Colors_init two_digit_int16) as [e|colors] eqn:Hinit;
    [vm_compute in Hinit; discriminate |].
  exists colors. unfold Colors_init in *.
  destruct (hex2rgb_each two_digit_int16 hexs) as [e|p] eqn:Hp;
    [discriminate |].
  rewrite (hex2rgb_each_agrees hexs p Hp).
  injection Hinit as <-. split; [reflexivity | split; [| reflexivity]].
  vm_compute in Hp. injection Hp as <-. reflexivity.
Qed.

Lemma residue_cases (i : Z) :
  let k := i mod 20 in
  k = 0 \/ k = 1 \/ k = 2 \/ k = 3 \/ k = 4 \/ k = 5 \/ k = 6 \/ k = 7 \/
  k = 8 \/ k = 9 \/ k = 10 \/ k = 11 \/ k = 12 \/ k = 13 \/ k = 14 \/
  k = 15 \/ k = 16 \/ k = 17 \/ k = 18 \/ k = 19.
Proof. pose proof (Z.mod_pos_bound i 20 ltac:(lia)). lia. Qed.

(** X17.  The palette is built without an error, and a call returns a colour for
    every integer index, negative ones included: three values from 0 to 255,
    in reverse order when [bgr] is set. *)
Theorem colors_call_total (i : Z) :
  exists colors r g b,
    Colors_init int16 = inr colors /\
    Colors_call colors i false = inr (r, g, b) /\
    Colors_call colors i true = inr (b, g, r) /\
    byte r /\ byte g /\ byte b.
Proof using int16_hex.
  destruct colors_built as (colors & Hinit & _ & Hsample).
  vm_compute in Hsample. injection Hsample as <-.
  match type of Hinit with _ = inr ?c => exists c end.
  unfold Colors_call. cbn [n palette]. change (20 =? 0) with false.
  cbv iota.
  destruct (residue_cases i)
    as [H|[H|[H|[H|[H|[H|[H|[H|[H|[H|[H|[H|[H|[H|[H|[H|[H|[H|[H|H]]]]]]]]]]]]]]]]]]];
    rewrite H; do 3 eexists;
    (split; [exact Hinit |]);
    (split; [reflexivity | split; [reflexivity |]]); unfold byte; lia.
Qed.

(** X18.  The colour repeats every 20 indices, in both directions. *)
Theorem colors_call_periodic (i k : Z) (bgr : bool) :
  exists colors,
    Colors_init int16 = inr colors /\
    Colors_call colors (i + 20 * k) bgr = Colors_call colors i bgr.
Proof using int16_hex.
  destruct colors_built as (colors & Hinit & Hn & _).
  exists colors. split; [exact Hinit |].
  unfold Colors_call. rewrite Hn.
  replace ((i + 20 * k) mod 20) with (i mod 20); [reflexivity |].
  rewrite (Z.mul_comm 20 k). symmetry. apply Z.mod_add. lia.
Qed.

End PaletteFacts.

Lemma two_digit_int16_hex (s : string) (v : Z) :
  hex_pair s = Some v -> two_digit_int16 s = inr v.
Proof. intros H. unfold two_digit_int16. now rewrite H. Qed.

Lemma hex2rgb_reads_three_pairs_witness :
  hex2rgb two_digit_int16 "#FF3838" = inr (255, 56, 56).
Proof.
  exact (proj1 (hex2rgb_reads_three_pairs two_digit_int16 two_digit_int16_hex
                  "#" "F" "F" "3" "8" "3" "8" 15 15 3 8 3 8 EmptyString
                  eq_refl eq_refl eq_refl eq_refl eq_refl eq_refl)).
Defined.

Lemma colors_call_total_witness :
  exists colors r g b,
    Colors_init two_digit_int16 = inr colors /\
    Colors_call colors (-1) false = inr (r, g, b) /\
    Colors_call colors (-1) true = inr (b, g, r) /\
    byte r /\ byte g /\ byte b.
Proof.
  exact (colors_call_total two_digit_int16 two_digit_int16_hex (-1)).
Defined.

Lemma colors_call_periodic_witness :
  exists colors,
    Colors_init two_digit_int16 = inr colors /\
    Colors_call colors (3 + 20 * -2) true = Colors_call colors 3 true.
Proof.
  exact (colors_call_periodic two_digit_int16 two_digit_int16_hex 3 (-2) true).
Defined.

(** ** model.py: the task map *)

(** X19.  TLCYOLO.task_map replaces the model, trainer and validator of the
    "detect" task and nothing else: the other members of "detect" and all
    other tasks are as the base class gave them.  Without a "detect" task
    it raises KeyError. *)
Theorem task_map_overrides_detect_only (m : gmap string (gmap string Class)) :
  match task_map m with
  | inl e => e = KeyError "detect" /\ m !! "detect" = None
  | inr m' =>
      exists entry entry',
        m !! "detect" = Some entry /\ m' !! "detect" = Some entry' /\
        entry' !! "model" = Some TLCDetectionModel /\
        entry' !! "trainer" = Some TLCDetectionTrainer /\
        entry' !! "validator" = Some TLCDetectionValidator /\
        (forall key, key <> "model" -> key <> "trainer" -> key <> "validator" ->
                     entry' !! key = entry !! key) /\
        (forall task, task <> "detect" -> m' !! task = m !! task)
  end.
Proof.
  unfold task_map. destruct (m !! "detect") as [entry|] eqn:Hdetect.
  - eexists entry, _. split; [reflexivity |].
    split; [apply lookup_insert_eq |].
    repeat split.
    + rewrite lookup_insert_ne by discriminate.
      rewrite lookup_insert_ne by discriminate. apply lookup_insert_eq.
    + rewrite lookup_insert_ne by discriminate. apply lookup_insert_eq.
    + apply lookup_insert_eq.
    + intros key H1 H2 H3. rewrite !lookup_insert_ne by congruence. reflexivity.
    + intros task Htask. rewrite lookup_insert_ne by congruence. reflexivity.
  - split; reflexivity.
Qed.

(** ** trainer.py: datasets and dataloaders *)

Lemma stride_at_least_32 (top : Z) : 32 <= Z.max top 32.
Proof. lia. Qed.

(** X20.  build_dataset asks for at most one dataset.  When it does, the stride is
    at least 32 (exactly 32 without a model), [rect] is set for the mode
    "val" and for no other, and the table is the one of the split.  When the
    split is not in [self.data] it raises without asking for a dataset. *)
Theorem build_dataset_request (fw : Framework) (img_path mode : string)
    (batch : option Z) (split : string) (self : Trainer) :
  let r := build_dataset fw img_path mode batch split self in
  exists new,
    trace (snd r) = trace self ++ new /\
    (forall p b m rect stride table,
        In (EvBuildDataset p b m rect stride table) new ->
        new = [EvBuildDataset img_path batch mode rect stride table] /\
        32 <= stride /\
        (self_model self = None -> stride = 32) /\
        rect = String.eqb mode "val" /\
        self_data self !! split = Some table) /\
    (self_data self !! split = None ->
     new = [] /\ exists e, fst r = Raise e).
Proof.
  unfold_trainer. project_trainer.
  destruct (self_model self) as [strides|]; project_trainer.
  - destruct (stride_max strides) as [e|top]; project_trainer.
    { exists []. rewrite app_nil_r. split; [reflexivity |].
      split; [intros ? ? ? ? ? ? [] | eauto]. }
    destruct (self_data self !! split) as [table|]; project_trainer.
    + destruct (build_tlc_dataset fw _ _ _ _ _ _); project_trainer;
        (eexists; split; [reflexivity |]);
        (split; [| discriminate]);
        intros p b m rect stride t [[= <- <- <- <- <- <-]|[]];
        (split; [reflexivity |]); (split; [apply stride_at_least_32 |]);
        (split; [discriminate |]); split; reflexivity.
    + exists []. rewrite app_nil_r. split; [reflexivity |].
      split; [intros ? ? ? ? ? ? [] | eauto].
  - destruct (self_data self !! split) as [table|]; project_trainer.
    + destruct (build_tlc_dataset fw _ _ _ _ _ _); project_trainer;
        (eexists; split; [reflexivity |]);
        (split; [| discriminate]);
        intros p b m rect stride t [[= <- <- <- <- <- <-]|[]];
        (split; [reflexivity |]); (split; [apply stride_at_least_32 |]);
        (split; [reflexivity |]); split; reflexivity.
    + exists []. rewrite app_nil_r. split; [reflexivity |].
      split; [intros ? ? ? ? ? ? [] | eauto].
Qed.


Lemma add_events_app (self : Trainer) (evs evs' : list Event) :
  add_events (add_events self evs) evs' = add_events self (evs ++ evs').
Proof. unfold add_events. simpl. now rewrite app_assoc. Qed.


(** ** trainer.py: the train-set validator *)

Lemma train_validator_returns_field (fw : Framework) (self self' : Trainer)
    (x : option Validator) :
  train_validator fw self = (Ret x, self') -> self_train_validator self' = x.
Proof.
  unfold train_validator, tbind at 1.
  match goal with
  | |- context [(match self_train_validator self with _ => _ end) self] =>
      destruct ((match self_train_validator self with
                 | Some _ => tret tt
                 | None => _
                 end) self) as [[u|e] s1]
  end; [| discriminate].
  intros [= <- <-]. reflexivity.
Qed.

(** X23.  The property builds its validator once: after an access that returned a
    validator, another access returns the same one and calls nothing. *)
Theorem train_validator_is_cached (fw : Framework) (self self' : Trainer)
    (v : Validator) :
  train_validator fw self = (Ret (Some v), self') ->
  train_validator fw self' = (Ret (Some v), self').
Proof.
  intros Hfirst. apply train_validator_returns_field in Hfirst.
  unfold train_validator, tbind. rewrite Hfirst. unfold tret.
  now rewrite Hfirst.
Qed.

Lemma train_validator_is_cached_witness :
  exists self',
    train_validator (sample_framework 0 false) (sample_trainer false)
      = (Ret (Some {| validator_id := 3 |}), self') /\
    train_validator (sample_framework 0 false) self'
      = (Ret (Some {| validator_id := 3 |}), self').
Proof.
  eexists. split; [vm_compute; reflexivity |].
  apply (train_validator_is_cached (sample_framework 0 false)
           (sample_trainer false)).
  vm_compute. reflexivity.
Defined.

(** X22.  get_validator sets the loss names and asks for one validator, on the run
    of the trainer and on the loader it was given; when it was given none, or
    an empty one, it uses [self.test_loader] instead. *)
Theorem get_validator_loader (fw : Framework) (loader : option Loader)
    (self : Trainer) :
  let r := get_validator fw loader self in
  exists new,
    trace (snd r) = trace self ++ new /\
    self_loss_names (snd r) = ["box_loss"; "cls_loss"; "dfl_loss"] /\
    (forall l run, In (EvNewValidator l run) new ->
       new = [EvNewValidator l run] /\ run = self_run self /\
       match loader with
       | Some given =>
           if Nat.eqb (loader_len given) 0 then self_test_loader self = Some l
           else l = given
       | None => self_test_loader self = Some l
       end) /\
    (forall v, fst r = Ret v -> exists l, new = [EvNewValidator l (self_run self)]).
Proof.
  destruct self as [workers task epochs bsz testset model data test_loader
                    epoch loss tv env cep run tr].
  unfold_trainer. project_trainer.
  destruct loader as [given|]; [destruct (Nat.eqb (loader_len given) 0) |];
    cbn [negb]; project_trainer;
    try (destruct test_loader as [t|]; project_trainer);
    try (exists []; rewrite app_nil_r;
         split; [reflexivity | split; [reflexivity |
           split; [intros ? ? [] | discriminate]]]);
    match goal with
    | |- context [new_validator ?f ?l ?r] =>
        destruct (new_validator f l r); project_trainer
    end;
    (eexists; split; [reflexivity |]); (split; [reflexivity |]);
    (split; [intros l0 run0 [[= <- <-]|[]]; auto | eauto; discriminate]).
Qed.

(** ** trainer.py: validation and the end of training *)

(** X24.  On a rank other than -1 and 0 the property builds nothing and is None;
    validate then fails with a TypeError in a collection epoch, before the
    validation of the base class is reached. *)
Theorem validate_on_worker_rank (fw : Framework) (self : Trainer)
    (disabled val_only : pyval) :
  RANK fw <> -1 -> RANK fw <> 0 ->
  self_train_validator self = None ->
  self_env_vars self !! "COLLECTION_DISABLE" = Some disabled ->
  py_truthy disabled = false ->
  self_env_vars self !! "COLLECTION_VAL_ONLY" = Some val_only ->
  py_truthy val_only = false ->
  In (self_epoch self) (self_collection_epochs self) ->
  train_validator fw self = (Ret None, self) /\
  validate fw self = (Raise TypeError, self).
Proof.
  intros Hrank1 Hrank0 Hnone Hdisabled Hd Hval Hv Hepoch.
  assert (Hprop : train_validator fw self = (Ret None, self)).
  { unfold train_validator, tbind. rewrite Hnone.
    replace ((RANK fw =? -1) || (RANK fw =? 0)) with false by lia.
    unfold tret. now rewrite Hnone. }
  split; [exact Hprop |].
  unfold validate, dict_item, tbind at 1, tlift at 1. rewrite Hdisabled.
  unfold tret at 1. unfold tbind at 1. rewrite Hd.
  unfold tbind at 1, tlift at 1. rewrite Hval. unfold tret at 1. rewrite Hv.
  assert (Hin : existsb (Z.eqb (self_epoch self)) (self_collection_epochs self)
                = true).
  { apply existsb_exists. exists (self_epoch self).
    split; [exact Hepoch | apply Z.eqb_refl]. }
  rewrite Hin. unfold tret at 1. unfold tbind at 1 2. rewrite Hprop.
  reflexivity.
Qed.

Lemma validate_on_worker_rank_witness :
  validate (sample_framework 1 false) (sample_trainer false)
  = (Raise TypeError, sample_trainer false).
Proof.
  refine (proj2 (validate_on_worker_rank (sample_framework 1 false)
                   (sample_trainer false) (PBool false) (PBool false)
                   _ _ eq_refl eq_refl eq_refl eq_refl eq_refl _)).
  - discriminate.
  - discriminate.
  - right. left. reflexivity.
Defined.

(** X25.  With the validator already built and both switches in the environment,
    validate calls the train-set validator first, in the collection epochs
    of an enabled, not val-only collection and in no other epoch, and the
    validation of the base class after it, whose result it returns; an
    exception of the train-set validator ends the call before that. *)
Theorem validate_collects_first (fw : Framework) (self : Trainer)
    (v : Validator) (disabled val_only : pyval) :
  self_train_validator self = Some v ->
  self_env_vars self !! "COLLECTION_DISABLE" = Some disabled ->
  self_env_vars self !! "COLLECTION_VAL_ONLY" = Some val_only ->
  let collect :=
    negb (py_truthy disabled) && negb (py_truthy val_only) &&
    existsb (Z.eqb (self_epoch self)) (self_collection_epochs self) in
  let answer :=
    match super_validate fw with inl e => Raise e | inr m => Ret m end in
  validate fw self =
    if collect then
      match call_validator fw v (self_epoch self) with
      | Some e =>
          (Raise e, add_events self [EvCallValidator v (self_epoch self)])
      | None =>
          (answer, add_events self [EvCallValidator v (self_epoch self);
                                    EvSuperValidate])
      end
    else (answer, add_events self [EvSuperValidate]).
Proof.
  intros Hcached Hdisabled Hval.
  destruct self as [workers task epochs bsz testset model data test_loader
                    epoch loss tv env cep run tr].
  simpl in Hcached, Hdisabled, Hval. subst tv.
  unfold_trainer. project_trainer. rewrite Hdisabled. project_trainer.
  destruct (py_truthy disabled); cbn [negb andb]; project_trainer.
  { unfold add_events. project_trainer.
    destruct (super_validate fw); reflexivity. }
  rewrite Hval. project_trainer.
  destruct (py_truthy val_only); cbn [negb andb]; project_trainer.
  { unfold add_events. project_trainer.
    destruct (super_validate fw); reflexivity. }
  destruct (existsb (Z.eqb epoch) cep); project_trainer.
  - destruct (call_validator fw v epoch); project_trainer;
      unfold add_events; project_trainer; [reflexivity |].
    rewrite <- app_assoc. destruct (super_validate fw); reflexivity.
  - unfold add_events. project_trainer.
    destruct (super_validate fw); reflexivity.
Qed.

Lemma validate_collects_first_witness :
  validate (sample_framework 0 false) validating_trainer =
    (Ret (PFloat (1 # 2)),
     add_events validating_trainer
       [EvCallValidator {| validator_id := 3 |} 1; EvSuperValidate]).
Proof.
  exact (validate_collects_first (sample_framework 0 false) validating_trainer
           {| validator_id := 3 |} (PBool false) (PBool false)
           eq_refl eq_refl eq_refl).
Defined.

Lemma init_inversion (fw : Framework) (self self1 : Trainer) :
  init fw self = (Ret tt, self1) ->
  exists env disabled,
    parse_environment_variables fw = inr env /\
    env !! "COLLECTION_DISABLE" = Some disabled /\
    self_env_vars self1 = env /\
    self_data self1 = self_data self /\
    self_train_validator self1 = None /\
    if py_truthy disabled then
      self_run self1 = None /\ trace self1 = trace self
    else
      exists table run,
        self_data self !! "train" = Some table /\
        tlc_init fw (table_project table) = inr run /\
        self_run self1 = Some run /\
        trace self1 = trace self ++ [EvTlcInit (table_project table)].
Proof.
  destruct self as [workers task epochs bsz testset model data test_loader
                    epoch loss tv env0 cep run0 tr].
  unfold_trainer. project_trainer.
  destruct (parse_environment_variables fw) as [e|env]; project_trainer;
    [discriminate |].
  destruct (env !! "COLLECTION_EPOCH_START") as [start|]; project_trainer;
    [| discriminate].
  destruct (env !! "COLLECTION_EPOCH_INTERVAL") as [interval|]; project_trainer;
    [| discriminate].
  destruct (env !! "COLLECTION_DISABLE") as [disabled|] eqn:Hdisabled;
    project_trainer; [| discriminate].
  destruct (get_metrics_collection_epochs fw start epochs interval disabled)
    as [e|collection]; project_trainer; [discriminate |].
  intros H.
  exists env, disabled. split; [reflexivity |]. split; [exact Hdisabled |].
  destruct (py_truthy disabled); project_trainer_in H.
  - injection H as <-. simpl. auto 10.
  - destruct (data !! "train") as [table|] eqn:Htable; project_trainer_in H;
      [| discriminate].
    destruct (tlc_init fw (table_project table)) as [e|run] eqn:Hrun;
      project_trainer_in H; [discriminate |].
    injection H as <-. simpl.
    split; [reflexivity |]. split; [reflexivity |]. split; [reflexivity |].
    exists table, run. auto.
Qed.

(** X26.  After __init__ returned, [self._env_vars] is what
    parse_environment_variables answered.  With COLLECTION_DISABLE truthy
    there, tlc.init was not called, [self._run] is None, and _do_train, once
    the training loop of the base class has returned, raises AttributeError
    instead of reducing embeddings.  With collection enabled, [self._run] is
    the run tlc.init answered for the project of the "train" table, and
    _do_train asks that run to reduce the embeddings of the "val" table with
    pacmap to 2 components, after the training loop, and returns or raises
    what that call does. *)
Theorem do_train_after_init (fw : Framework) (self self1 : Trainer)
    (world_size : Z) :
  init fw self = (Ret tt, self1) ->
  super_do_train fw world_size = None ->
  exists disabled,
    parse_environment_variables fw = inr (self_env_vars self1) /\
    self_env_vars self1 !! "COLLECTION_DISABLE" = Some disabled /\
    if py_truthy disabled then
      self_run self1 = None /\
      trace self1 = trace self /\
      do_train fw world_size self1 =
        (Raise (OtherException "AttributeError"),
         add_events self1 [EvSuperDoTrain world_size])
    else
      exists train_table run,
        self_data self !! "train" = Some train_table /\
        tlc_init fw (table_project train_table) = inr run /\
        self_run self1 = Some run /\
        trace self1 = trace self ++ [EvTlcInit (table_project train_table)] /\
        forall table,
          self_data self !! "val" = Some table ->
          do_train fw world_size self1 =
            (match reduce_embeddings fw run (table_url table) "pacmap" 2 with
             | Some e => Raise e
             | None => Ret tt
             end,
             add_events self1
               [EvSuperDoTrain world_size;
                EvReduceEmbeddings run (table_url table) "pacmap" 2]).
Proof.
  intros Hinit Hloop.
  destruct (init_inversion fw self self1 Hinit)
    as (env & disabled & Hparse & Hdisabled & Henv & Hdata & _ & Hrun).
  exists disabled. rewrite Henv. split; [exact Hparse |].
  split; [exact Hdisabled |].
  destruct self1 as [workers task epochs bsz testset model data test_loader
                     epoch loss tv env1 cep run1 tr].
  simpl in Henv, Hdata, Hrun.
  destruct (py_truthy disabled).
  - destruct Hrun as [-> Htrace].
    split; [reflexivity |]. split; [exact Htrace |].
    unfold_trainer. project_trainer. rewrite Hloop. project_trainer.
    reflexivity.
  - destruct Hrun as (table0 & run & Htrain & Hinit_run & -> & Htrace).
    exists table0, run.
    split; [exact Htrain |]. split; [exact Hinit_run |].
    split; [reflexivity |]. split; [exact Htrace |].
    intros table Htable. rewrite <- Hdata in Htable.
    unfold_trainer. project_trainer. rewrite Hloop. project_trainer.
    rewrite Htable. project_trainer.
    destruct (reduce_embeddings fw run (table_url table) "pacmap" 2);
      project_trainer; unfold add_events; project_trainer;
      rewrite <- app_assoc; reflexivity.
Qed.

Lemma do_train_after_init_witness :
  exists self1,
    init (sample_framework 0 true) (sample_trainer true) = (Ret tt, self1) /\
    self_run self1 = None /\
    do_train (sample_framework 0 true) 1 self1 =
      (Raise (OtherException "AttributeError"),
       add_events self1 [EvSuperDoTrain 1]).
Proof.
  eexists. split; [vm_compute; reflexivity |].
  destruct (do_train_after_init (sample_framework 0 true) (sample_trainer true)
              _ 1 ltac:(vm_compute; reflexivity) eq_refl)
    as (disabled & _ & Hdisabled & Hrun).
  vm_compute in Hdisabled. injection Hdisabled as <-.
  exact (conj (proj1 Hrun) (proj2 (proj2 Hrun))).
Defined.
